(** * The subscription checkout page (client/src/pages/subscribe.tsx)

    A shallow embedding of the [Subscribe] page component: the module-level
    provider flag, the tier read from the query string, the two effects
    (metadata injection and checkout initiation), the asynchronous
    [setupSubscription] with its try/catch, and the render function.

    JavaScript values that reach the code untyped ([catch (err)]) are a
    small value type; React state is the pair of [useState] cells, every
    [set] being recorded so that the sequence of rendered views of one run
    can be read back; the browser (location, router, console, backend
    calls, document) is an explicit world threaded through a state and
    exception monad.  The setter of [window.location.href] throws on a
    string that does not parse as a URL, and [document.title] lives in the
    [title] element of the node tree. *)

From Stdlib Require Import String Ascii List Bool Arith Lia.
Import ListNotations.
Open Scope string_scope.

Set Warnings "-register-all".

(* ------------------------------------------------------------------ *)
(** ** JavaScript values and truthiness *)

Module Js.

(** The values a rejected promise may carry.  [VError] is an object for
    which [instanceof Error] holds; [VObject] is any other object, also
    one that happens to have a [message] field. *)
Inductive Value : Type :=
| VUndefined
| VNull
| VBool (b : bool)
| VNumber (n : nat)
| VString (s : string)
| VObject (fields : list (string * string))
| VError (message : string).

Definition instanceof_Error (v : Value) : bool :=
  match v with
  | VError _ => true
  | _ => false
  end.

Definition message (v : Value) : string :=
  match v with
  | VError m => m
  | _ => EmptyString
  end.

(** A string is truthy exactly when it is not empty. *)
Definition truthy_string (s : string) : bool :=
  match s with
  | EmptyString => false
  | String _ _ => true
  end.

(** [string | undefined] and [string | null]: the missing value is falsy. *)
Definition truthy (o : option string) : bool :=
  match o with
  | None => false
  | Some s => truthy_string s
  end.

(** [a || b] on a possibly missing string. *)
Definition or_else (o : option string) (d : string) : string :=
  match o with
  | Some s => if truthy_string s then s else d
  | None => d
  end.

End Js.

(* ------------------------------------------------------------------ *)
(** ** Collaborators declared outside the page *)

(** Modelled from the spec: the enumeration [SubscriptionTier] of
    [@shared/schema], which the page imports but which is not part of the
    sources at hand.  The spec names the tiers Basic, Pro and Power and
    fixes that the query value ["pro"] denotes Pro; at run time a member
    of a TypeScript string enum is its string. *)
Module SubscriptionTier.

Inductive t : Type := Basic | Pro | Power.

Definition value (x : t) : string :=
  match x with
  | Basic => "basic"
  | Pro => "pro"
  | Power => "power"
  end.

Definition all : list t := [Basic; Pro; Power].

(** A query value is recognized when it is the string of some tier. *)
Definition recognized (s : string) : bool :=
  existsb (fun x => String.eqb s (value x)) all.

End SubscriptionTier.

(** [URLSearchParams]: the decoded pairs of the query string in order;
    [get] answers the first value stored under the name, [null] if none. *)
Definition URLSearchParams := list (string * string).

Fixpoint params_get (params : URLSearchParams) (name : string) : option string :=
  match params with
  | [] => None
  | (k, v) :: rest => if String.eqb k name then Some v else params_get rest name
  end.

(** The session handed down by [UserContext]. *)
Record Session : Type := { isAuthenticated : bool }.

(** [import.meta.env], as far as the page reads it. *)
Record Env : Type := { VITE_STRIPE_PUBLIC_KEY : option string }.

(** What [createSubscription] resolves with: an object whose [url] may be
    missing. *)
Record CheckoutSession : Type := { url : option string }.

(** How the promise returned by [createSubscription] settles. *)
Inductive Settled : Type :=
| Resolved (r : CheckoutSession)
| Rejected (reason : Js.Value).

(* ------------------------------------------------------------------ *)
(** ** JSON text of the structured data *)

Module Json.

Inductive t : Type :=
| JString (s : string)
| JObject (fields : list (string * t)).

Definition dquote : string := String (ascii_of_nat 34) EmptyString.

(** The constants of the page hold no character that [JSON.stringify]
    escapes, so quoting is wrapping. *)
Definition quote (s : string) : string := dquote ++ s ++ dquote.

Fixpoint join (sep : string) (l : list string) : string :=
  match l with
  | [] => EmptyString
  | [x] => x
  | x :: rest => x ++ sep ++ join sep rest
  end.

Fixpoint stringify (j : t) : string :=
  match j with
  | JString s => quote s
  | JObject fields =>
      "{" ++ join ","
               (map (fun kv => let '(k, v) := kv in quote k ++ ":" ++ stringify v)
                    fields)
          ++ "}"
  end.

End Json.

(* ------------------------------------------------------------------ *)
(** ** The document *)

Module Dom.

(** A node is a text node or an element with its attributes (the [id]
    among them) and children.  A place in the document is the list of
    child indices leading to it from the document root. *)
Inductive Node : Type :=
| Text (data : string)
| Element (tag : string) (attrs : list (string * string)) (children : list Node).

Definition path := list nat.

Fixpoint getAttribute (attrs : list (string * string)) (name : string)
  : option string :=
  match attrs with
  | [] => None
  | (k, v) :: rest => if String.eqb k name then Some v else getAttribute rest name
  end.

(** [setAttribute]: overwrite in place, or add at the end. *)
Fixpoint setAttribute (attrs : list (string * string)) (name value : string)
  : list (string * string) :=
  match attrs with
  | [] => [(name, value)]
  | (k, v) :: rest =>
      if String.eqb k name then (k, value) :: rest
      else (k, v) :: setAttribute rest name value
  end.

Definition set_attr (n : Node) (name value : string) : Node :=
  match n with
  | Text d => Text d
  | Element t a cs => Element t (setAttribute a name value) cs
  end.

(** [node.textContent = s] on an element. *)
Definition set_textContent (n : Node) (s : string) : Node :=
  match n with
  | Text _ => Text s
  | Element t a _ =>
      Element t a (if Js.truthy_string s then [Text s] else [])
  end.

Definition createElement (tag : string) : Node := Element tag [] [].

(** The three shapes of selector the page uses: [tag], [tag#id] and
    [tag[name="value"]]. *)
Inductive Selector : Type :=
| Tag (tag : string)
| TagId (tag id : string)
| TagAttr (tag name value : string).

Definition attr_is (a : list (string * string)) (name value : string) : bool :=
  match getAttribute a name with
  | Some v => String.eqb v value
  | None => false
  end.

Definition matches (s : Selector) (n : Node) : bool :=
  match n with
  | Text _ => false
  | Element t a _ =>
      match s with
      | Tag tag => String.eqb t tag
      | TagId tag id => String.eqb t tag && attr_is a "id" id
      | TagAttr tag name value => String.eqb t tag && attr_is a name value
      end
  end.

(** First hit of a list of searches, with the index of the child that
    produced it. *)
Fixpoint first_some (i : nat) (l : list (option path)) : option path :=
  match l with
  | [] => None
  | Some q :: _ => Some (i :: q)
  | None :: rest => first_some (S i) rest
  end.

(** First match in document order (pre-order) in the subtree of [n]. *)
Fixpoint query (s : Selector) (n : Node) : option path :=
  if matches s n then Some []
  else match n with
       | Text _ => None
       | Element _ _ cs => first_some 0 (map (query s) cs)
       end.

(** [document.querySelector]: the document itself is no element. *)
Definition querySelector (s : Selector) (nodes : list Node) : option path :=
  first_some 0 (map (query s) nodes).

(** Number of elements matching [s] in a subtree, and in a forest. *)
Fixpoint count (s : Selector) (n : Node) : nat :=
  (if matches s n then 1 else 0) +
  match n with
  | Text _ => 0
  | Element _ _ cs => list_sum (map (count s) cs)
  end.

Definition count_all (s : Selector) (nodes : list Node) : nat :=
  list_sum (map (count s) nodes).

Fixpoint remove_nth (i : nat) (l : list Node) {struct l} : list Node :=
  match l, i with
  | [], _ => []
  | _ :: rest, 0 => rest
  | x :: rest, S j => x :: remove_nth j rest
  end.

Fixpoint update_nth (i : nat) (f : Node -> Node) (l : list Node) {struct l}
  : list Node :=
  match l, i with
  | [], _ => []
  | x :: rest, 0 => f x :: rest
  | x :: rest, S j => x :: update_nth j f rest
  end.

Definition on_children (f : list Node -> list Node) (n : Node) : Node :=
  match n with
  | Text d => Text d
  | Element t a cs => Element t a (f cs)
  end.

(** [node.remove()] for the node at [p]. *)
Fixpoint remove_at (p : path) (nodes : list Node) : list Node :=
  match p with
  | [] => nodes
  | [i] => remove_nth i nodes
  | i :: q => update_nth i (on_children (remove_at q)) nodes
  end.

(** [parent.appendChild(c)] for the parent at [p]. *)
Fixpoint append_at (p : path) (c : Node) (nodes : list Node) : list Node :=
  match p with
  | [] => nodes
  | [i] => update_nth i (on_children (fun cs => (cs ++ [c])%list)) nodes
  | i :: q => update_nth i (on_children (append_at q c)) nodes
  end.

(** [element.setAttribute(name, value)] for the element at [p]. *)
Fixpoint set_attr_at (p : path) (name value : string) (nodes : list Node)
  : list Node :=
  match p with
  | [] => nodes
  | [i] => update_nth i (fun n => set_attr n name value) nodes
  | i :: q => update_nth i (on_children (set_attr_at q name value)) nodes
  end.

(** Where the node that was at [target] is once the node at [removed] has
    left the document; [None] when it left with it. *)
Fixpoint after_removal (removed target : path) : option path :=
  match removed with
  | [] => None
  | i :: r =>
      match target with
      | [] => Some []
      | j :: t =>
          match r with
          | [] =>
              if Nat.ltb j i then Some (j :: t)
              else if Nat.eqb j i then None
              else Some (pred j :: t)
          | _ :: _ =>
              if Nat.eqb i j then option_map (cons j) (after_removal r t)
              else Some (j :: t)
          end
      end
  end.

(** [string replace all] within the element at [p]: its children give way
    to [cs]. *)
Fixpoint set_children_at (p : path) (cs : list Node) (nodes : list Node)
  : list Node :=
  match p with
  | [] => nodes
  | [i] => update_nth i (on_children (fun _ => cs)) nodes
  | i :: q => update_nth i (on_children (set_children_at q cs)) nodes
  end.

(** The document element: the first element among the children of the
    document, with its index. *)
Fixpoint first_element (i : nat) (l : list Node) : option (nat * Node) :=
  match l with
  | [] => None
  | Text _ :: rest => first_element (S i) rest
  | Element t a cs :: _ => Some (i, Element t a cs)
  end.

(** Index of the first child that is an element named [tag]. *)
Fixpoint child_named (tag : string) (i : nat) (l : list Node) : option nat :=
  match l with
  | [] => None
  | Text _ :: rest => child_named tag (S i) rest
  | Element t _ _ :: rest =>
      if String.eqb t tag then Some i else child_named tag (S i) rest
  end.

(** The head element of the document: the first [head] child of the
    document element, when that is an [html] element. *)
Definition head_element (nodes : list Node) : option path :=
  match first_element 0 nodes with
  | Some (i, Element t _ cs) =>
      if String.eqb t "html"
      then option_map (fun j => [i; j]) (child_named "head" 0 cs)
      else None
  | _ => None
  end.

(** [document.title = s] in a document of HTML elements: the text of the
    first [title] element in document order is replaced; without [title]
    element a new one is appended to the head element; without either
    nothing happens. *)
Definition set_title (s : string) (nodes : list Node) : list Node :=
  let text := if Js.truthy_string s then [Text s] else [] in
  match querySelector (Tag "title") nodes with
  | Some p => set_children_at p text nodes
  | None =>
      match head_element nodes with
      | Some h => append_at h (Element "title" [] text) nodes
      | None => nodes
      end
  end.

(** The document: its node tree. *)
Record Document : Type := { nodes : list Node }.

End Dom.

(* ------------------------------------------------------------------ *)
(** ** The browser around the page, and a monad for the page's effects *)

(** The two [useState] cells of the component. *)
Record State : Type := { isLoading : bool; error : option string }.

(** What the component function returns: nothing, the spinner, the error
    card with its message, or the card titled Redirecting to Checkout. *)
Inductive View : Type :=
| Nothing
| LoadingView
| ErrorView (message : string)
| RedirectingView.

(** What the setter of [window.location.href] does with a string: [None]
    when the string parses as a URL against the address of the page, so
    that the assignment goes through; otherwise the message of the
    exception the setter throws (a [DOMException], which is an [Error]),
    given by its first character and the rest, a message being never
    empty. *)
Definition HrefSetter : Type := string -> option (ascii * string).

(** Everything a run of the page can read or change.  [history] holds the
    component state after every call of a setter, newest first, starting
    with the initial values of the cells. *)
Record World : Type := {
  import_meta_env : Env;
  href_setter : HrefSetter;
  location_href : option string;
  navigations : list string;
  requests : list string;
  console : list (string * Js.Value);
  unhandled : list Js.Value;
  document : Dom.Document;
  history : list State
}.

Definition initial_state : State := {| isLoading := true; error := None |}.

Definition fresh_world (setter : HrefSetter) (env : Env) (doc : Dom.Document)
  : World :=
  {| import_meta_env := env; href_setter := setter;
     location_href := None; navigations := [];
     requests := []; console := []; unhandled := [];
     document := doc; history := [initial_state] |}.

Definition current (w : World) : State := hd initial_state (history w).

Module Eff.

(** How a piece of code ends: normally with a value, or by throwing. *)
Inductive Completion (A : Type) : Type :=
| Normal (a : A)
| Throw (v : Js.Value).
Arguments Normal {A} a.
Arguments Throw {A} v.

Definition M (A : Type) : Type := World -> Completion A * World.

Definition ret {A} (a : A) : M A := fun w => (Normal a, w).

Definition bind {A B} (c : M A) (k : A -> M B) : M B :=
  fun w =>
    match c w with
    | (Normal a, w') => k a w'
    | (Throw v, w') => (Throw v, w')
    end.

Definition throw {A} (v : Js.Value) : M A := fun w => (Throw v, w).

(** [try { body } catch (err) { handler }] *)
Definition try_catch {A} (body : M A) (handler : Js.Value -> M A) : M A :=
  fun w =>
    match body w with
    | (Normal a, w') => (Normal a, w')
    | (Throw v, w') => handler v w'
    end.

(** Calling an [async] function without awaiting it: the caller goes on;
    a rejection of the returned promise that nobody handles is reported
    to the host. *)
Definition detached (c : M unit) : M unit :=
  fun w =>
    match c w with
    | (Normal _, w') => (Normal tt, w')
    | (Throw v, w') =>
        (Normal tt,
         {| import_meta_env := import_meta_env w';
            href_setter := href_setter w';
             location_href := location_href w';
            navigations := navigations w';
            requests := requests w';
            console := console w';
            unhandled := unhandled w' ++ [v];
            document := document w';
            history := history w' |})
    end.

(** [await p] *)
Definition await {A} (p : Js.Value + A) : M A :=
  match p with
  | inr a => ret a
  | inl v => throw v
  end.

Definition push_state (f : State -> State) : M unit :=
  fun w =>
    (Normal tt,
     {| import_meta_env := import_meta_env w;
        href_setter := href_setter w;
         location_href := location_href w;
        navigations := navigations w;
        requests := requests w;
        console := console w;
        unhandled := unhandled w;
        document := document w;
        history := f (current w) :: history w |}).

Definition setIsLoading (b : bool) : M unit :=
  push_state (fun st => {| isLoading := b; error := error st |}).

Definition setError (e : option string) : M unit :=
  push_state (fun st => {| isLoading := isLoading st; error := e |}).

(** [navigate(path)] of the router. *)
Definition navigate (to : string) : M unit :=
  fun w =>
    (Normal tt,
     {| import_meta_env := import_meta_env w;
        href_setter := href_setter w;
         location_href := location_href w;
        navigations := navigations w ++ [to];
        requests := requests w;
        console := console w;
        unhandled := unhandled w;
        document := document w;
        history := history w |}).

(** [window.location.href = u]: the assignment goes through when the
    string parses as a URL, and throws when it does not. *)
Definition set_location_href (u : string) : M unit :=
  fun w =>
    match href_setter w u with
    | None =>
        (Normal tt,
         {| import_meta_env := import_meta_env w;
            href_setter := href_setter w;
            location_href := Some u;
            navigations := navigations w;
            requests := requests w;
            console := console w;
            unhandled := unhandled w;
            document := document w;
            history := history w |})
    | Some (c, m) => (Throw (Js.VError (String c m)), w)
    end.

(** [console.error(label, v)] *)
Definition console_error (label : string) (v : Js.Value) : M unit :=
  fun w =>
    (Normal tt,
     {| import_meta_env := import_meta_env w;
        href_setter := href_setter w;
         location_href := location_href w;
        navigations := navigations w;
        requests := requests w ;
        console := console w ++ [(label, v)];
        unhandled := unhandled w;
        document := document w;
        history := history w |}).

(** The call [createSubscription(tier)] leaves the page; what comes back
    is the settled promise the backend [answer]s with. *)
Definition request (answer : string -> Settled) (tier : string)
  : M (Js.Value + CheckoutSession) :=
  fun w =>
    (Normal (match answer tier with
             | Resolved r => inr r
             | Rejected v => inl v
             end),
     {| import_meta_env := import_meta_env w;
        href_setter := href_setter w;
         location_href := location_href w;
        navigations := navigations w;
        requests := requests w ++ [tier];
        console := console w;
        unhandled := unhandled w;
        document := document w;
        history := history w |}).

Definition on_document (f : Dom.Document -> Dom.Document) : M unit :=
  fun w =>
    (Normal tt,
     {| import_meta_env := import_meta_env w;
        href_setter := href_setter w;
         location_href := location_href w;
        navigations := navigations w;
        requests := requests w;
        console := console w;
        unhandled := unhandled w;
        document := f (document w);
        history := history w |}).

Definition exec {A} (c : M A) (w : World) : World := snd (c w).
Definition result {A} (c : M A) (w : World) : Completion A := fst (c w).

End Eff.

Declare Scope js_scope.
Delimit Scope js_scope with js.
Notation "x <- c ;; k" := (Eff.bind c (fun x => k))
  (at level 61, c at next level, right associativity) : js_scope.
Notation "c ;; k" := (Eff.bind c (fun _ => k))
  (at level 61, right associativity) : js_scope.

(* ------------------------------------------------------------------ *)
(** ** The page module *)

(** Top-level bindings of the module, evaluated once, when the module is
    imported. *)
Record PageModule : Type := { isStripeAvailable : bool }.

(** [const isStripeAvailable = !!import.meta.env.VITE_STRIPE_PUBLIC_KEY;] *)
Definition import_module (env : Env) : PageModule :=
  {| isStripeAvailable := Js.truthy (VITE_STRIPE_PUBLIC_KEY env) |}.

Definition page_title : string := "Upgrade Your Plan - AI LaTeX Generator".

Definition page_description : string :=
  "Upgrade your AI LaTeX Generator subscription plan. Choose from Basic, Pro, and Power plans to unlock more document generations per month.".

Definition schemaData : Json.t :=
  Json.JObject
    [("@context", Json.JString "https://schema.org");
     ("@type", Json.JString "Product");
     ("name", Json.JString "AI LaTeX Generator Subscription");
     ("description",
      Json.JString
        "Subscribe to AI LaTeX Generator and create professional LaTeX documents with AI assistance");
     ("offers",
      Json.JObject
        [("@type", Json.JString "AggregateOffer");
         ("lowPrice", Json.JString "0.99");
         ("highPrice", Json.JString "19.99");
         ("priceCurrency", Json.JString "USD");
         ("offerCount", Json.JString "5")]);
     ("category", Json.JString "Software Subscription");
     ("image", Json.JString "https://aitexgen.com/subscription.png");
     ("brand",
      Json.JObject
        [("@type", Json.JString "Brand");
         ("name", Json.JString "AI LaTeX Generator")])].

Definition schema_selector : Dom.Selector := Dom.TagId "script" "subscription-schema".

(** The script element the first effect builds before it inserts it. *)
Definition schemaScript : Dom.Node :=
  let s := Dom.createElement "script" in
  let s := Dom.set_attr s "type" "application/ld+json" in
  let s := Dom.set_attr s "id" "subscription-schema" in
  Dom.set_textContent s (Json.stringify schemaData).

(** Lines 31 to 35: the description is rewritten where a description
    [meta] exists; none is created. *)
Definition update_description (ns : list Dom.Node) : list Dom.Node :=
  let metaDescription :=
    Dom.querySelector (Dom.TagAttr "meta" "name" "description") ns in
  match metaDescription with
  | Some p => Dom.set_attr_at p "content" page_description ns
  | None => ns
  end.

(** Lines 38 to 72: with a [head] in the document, the first
    [script#subscription-schema] of the document is removed and the new
    script is appended to that [head] (which has left the document too if
    it sat inside the removed script). *)
Definition replace_schema (ns : list Dom.Node) : list Dom.Node :=
  let head := Dom.querySelector (Dom.Tag "head") ns in
  match head with
  | Some head =>
      let existingSchema := Dom.querySelector schema_selector ns in
      let '(ns, head) :=
        match existingSchema with
        | Some e => (Dom.remove_at e ns, Dom.after_removal e head)
        | None => (ns, Some head)
        end in
      match head with
      | Some head => Dom.append_at head schemaScript ns
      | None => ns
      end
  | None => ns
  end.

(** Body of the first effect (lines 26 to 73), on the document: the title
    (line 28), the description, the structured data. *)
Definition inject_metadata (d : Dom.Document) : Dom.Document :=
  {| Dom.nodes :=
       replace_schema
         (update_description (Dom.set_title page_title (Dom.nodes d))) |}.

Definition not_configured : string :=
  "Payment system is not configured. Please contact the administrator.".

Section Subscribe.

Local Open Scope js_scope.

(** What a mounted page is given: its module, the session of the user
    context, the query string, and the backend behind
    [createSubscription]. *)
Variable module : PageModule.
Variable session : Session.
Variable search : URLSearchParams.
Variable createSubscription : string -> Settled.

(** [params.get("tier") as SubscriptionTier || SubscriptionTier.Basic] *)
Definition tier : string :=
  Js.or_else (params_get search "tier")
             (SubscriptionTier.value SubscriptionTier.Basic).

Definition metadata_effect : Eff.M unit := Eff.on_document inject_metadata.

Definition setupSubscription : Eff.M unit :=
  Eff.try_catch
    (promise <- Eff.request createSubscription tier ;;
     r <- Eff.await promise ;;
     if Js.truthy (url r) then
       Eff.set_location_href (match url r with Some u => u | None => EmptyString end)
     else
       (Eff.setError (Some "Failed to create checkout session") ;;
        Eff.setIsLoading false))
    (fun err =>
       Eff.console_error "Error creating subscription:" err ;;
       Eff.setError
         (Some (if Js.instanceof_Error err then Js.message err
                else "Failed to create subscription")) ;;
       Eff.setIsLoading false).

(** Body of the second effect (lines 75 to 110). *)
Definition checkout_effect : Eff.M unit :=
  if negb (isAuthenticated session) then
    Eff.navigate "/"
  else if negb (isStripeAvailable module) then
    (Eff.setError (Some not_configured) ;;
     Eff.setIsLoading false)
  else
    Eff.detached setupSubscription.

(** What the component function returns for given state (lines 112 on). *)
Definition render (st : State) : View :=
  if negb (isAuthenticated session) then Nothing
  else if isLoading st then LoadingView
  else if Js.truthy (error st) then
    ErrorView (match error st with Some e => e | None => EmptyString end)
  else RedirectingView.

(** Mounting runs the effects in the order they are declared. *)
Definition mount : Eff.M unit := metadata_effect ;; checkout_effect.

(** The checkout flow alone, and the page after it. *)
Definition flow (w : World) : World := Eff.exec checkout_effect w.

Definition view (w : World) : View := render (current w).

(** The views rendered in the course of a run, oldest first. *)
Definition views (w : World) : list View := map render (rev (history w)).

End Subscribe.

Definition View_eqb (a b : View) : bool :=
  match a, b with
  | Nothing, Nothing => true
  | LoadingView, LoadingView => true
  | ErrorView x, ErrorView y => String.eqb x y
  | RedirectingView, RedirectingView => true
  | _, _ => false
  end.

(** The successive distinct views: repetitions of the same view in a row
    are one stay in that view. *)
Fixpoint stays (l : list View) : list View :=
  match l with
  | [] => []
  | a :: rest =>
      match rest with
      | [] => [a]
      | b :: _ => if View_eqb a b then stays rest else a :: stays rest
      end
  end.

(** The injector run [n] times. *)
Fixpoint inject_times (n : nat) (d : Dom.Document) : Dom.Document :=
  match n with
  | 0 => d
  | S k => inject_metadata (inject_times k d)
  end.

(** A document as the HTML parser builds it: one [html] root element whose
    first child is the [head]. *)
Definition html_document (a ha : list (string * string))
  (in_head rest : list Dom.Node) : list Dom.Node :=
  [Dom.Element "html" a (Dom.Element "head" ha in_head :: rest)].

(** Changing the configuration the process sees, between two runs. *)
Definition set_env (env : Env) (w : World) : World :=
  {| import_meta_env := env;
     href_setter := href_setter w;
     location_href := location_href w;
     navigations := navigations w;
     requests := requests w;
     console := console w;
     unhandled := unhandled w;
     document := document w;
     history := history w |}.

(** The message the catch clause stores for a rejection reason. *)
Definition rejection_message (err : Js.Value) : string :=
  if Js.instanceof_Error err then Js.message err
  else "Failed to create subscription".

(* ------------------------------------------------------------------ *)
(** ** The buttons of the cards, and reading the document back *)

(** The [onClick] of the one button a view has: [Return to Home] on the
    error card (line 138), [Return to Account] on the card titled
    Redirecting to Checkout (line 160); the spinner and the empty view have
    no button. *)
Definition click_button (v : View) : Eff.M unit :=
  match v with
  | ErrorView _ => Eff.navigate "/"
  | RedirectingView => Eff.navigate "/account"
  | LoadingView | Nothing => Eff.ret tt
  end.

(** The node at a place of the document. *)
Fixpoint node_at (p : Dom.path) (ns : list Dom.Node) : option Dom.Node :=
  match p with
  | [] => None
  | i :: q =>
      match q with
      | [] => nth_error ns i
      | _ :: _ =>
          match nth_error ns i with
          | Some (Dom.Element _ _ cs) => node_at q cs
          | _ => None
          end
      end
  end.

(** What [Dom.set_children_at] does to the node it passes through or ends
    at, [q] being the rest of the way. *)
Definition with_children_at (q : Dom.path) (cs : list Dom.Node) (n : Dom.Node)
  : Dom.Node :=
  match q with
  | [] => Dom.on_children (fun _ => cs) n
  | _ :: _ => Dom.on_children (Dom.set_children_at q cs) n
  end.

(** [element.getAttribute(name)] for the element at [p]. *)
Definition attribute_at (p : Dom.path) (name : string) (ns : list Dom.Node)
  : option string :=
  match node_at p ns with
  | Some (Dom.Element _ a _) => Dom.getAttribute a name
  | _ => None
  end.

(** Whether a selector looks at the attribute [name]. *)
Definition selector_reads (s : Dom.Selector) (name : string) : bool :=
  match s with
  | Dom.Tag _ => false
  | Dom.TagId _ _ => String.eqb name "id"
  | Dom.TagAttr _ n _ => String.eqb name n
  end.

Definition description_selector : Dom.Selector :=
  Dom.TagAttr "meta" "name" "description".

(* ------------------------------------------------------------------ *)
(** ** Sample inputs for the examples *)

Definition configured : Env := {| VITE_STRIPE_PUBLIC_KEY := Some "pk_test_51" |}.


Definition signed_in : Session := {| isAuthenticated := true |}.

Definition sample_document : Dom.Document :=
  {| Dom.nodes :=
       html_document [("lang", "en")] []
         [Dom.Element "title" [] [Dom.Text "AI LaTeX Generator"];
          Dom.Element "meta" [("name", "description"); ("content", "LaTeX with AI")] []]
         [Dom.Element "body" [] [Dom.Element "div" [("id", "root")] []]] |}.

Definition pay_url : string := "https://pay.example/session/abc".

(** A sample of what the setter of the location answers: it refuses a
    scheme without host, as every browser does, and lets the other
    strings through. *)
Definition sample_setter : HrefSetter :=
  fun u =>
    if String.eqb u "https://" || String.eqb u "http://"
    then Some ("I"%char, "nvalid URL: " ++ u)
    else None.

(* ================================================================== *)
(** * Properties *)

Open Scope list_scope.

(** ** Truthiness and the tier enumeration *)

Lemma truthy_string_true s : Js.truthy_string s = true <-> s <> EmptyString.
Proof. destruct s; simpl; split; congruence. Qed.

Lemma truthy_string_false s : Js.truthy_string s = false <-> s = EmptyString.
Proof. destruct s; simpl; split; congruence. Qed.

Lemma truthy_absent_or_empty (o : option string) :
  Js.truthy o = false <-> o = None \/ o = Some EmptyString.
Proof.
  destruct o as [s|]; simpl.
  - rewrite truthy_string_false. split.
    + intros ->. now right.
    + intros [H|H]; congruence.
  - split; auto.
Qed.

Lemma recognized_spec s :
  SubscriptionTier.recognized s = true <-> exists x, s = SubscriptionTier.value x.
Proof.
  unfold SubscriptionTier.recognized. rewrite existsb_exists. split.
  - intros [x [_ H]]. exists x. now apply String.eqb_eq.
  - intros [x ->]. exists x. split.
    + destruct x; simpl; auto.
    + apply String.eqb_refl.
Qed.

(** ** The checkout flow, branch by branch *)

Section FlowFacts.

Variable module : PageModule.
Variable session : Session.
Variable search : URLSearchParams.
Variable createSubscription : string -> Settled.

Hypothesis authenticated : isAuthenticated session = true.

(** Run the guards of the effect with what is known about the session and
    the module, and open [setupSubscription] when it is reached. *)
Ltac enter_flow :=
  unfold flow, Eff.exec, Eff.result, checkout_effect;
  repeat match goal with
         | H : isAuthenticated _ = _ |- _ => rewrite H
         | H : isStripeAvailable _ = _ |- _ => rewrite H
         end;
  simpl;
  unfold Eff.detached, setupSubscription, Eff.try_catch, Eff.bind, Eff.request.

(** Provider not configured: the message is stored, loading ends, and
    nothing else in the world moves. *)
Lemma flow_not_configured w :
  isStripeAvailable module = false ->
  history (flow module session search createSubscription w)
  = {| isLoading := false; error := Some not_configured |}
    :: {| isLoading := isLoading (current w); error := Some not_configured |}
    :: history w
  /\ requests (flow module session search createSubscription w) = requests w
  /\ location_href (flow module session search createSubscription w)
     = location_href w
  /\ unhandled (flow module session search createSubscription w) = unhandled w.
Proof. intros Hm. enter_flow. auto. Qed.

Hypothesis available : isStripeAvailable module = true.

(** In every other case the backend is asked, once, for [tier]. *)
Lemma flow_requests w :
  requests (flow module session search createSubscription w)
  = requests w ++ [tier search].
Proof.
  enter_flow.
  destruct (createSubscription (tier search)) as [r|v]; simpl.
  - destruct (Js.truthy (url r)); simpl; [|reflexivity].
    unfold Eff.set_location_href. simpl.
    destruct (href_setter w _) as [[c m]|]; reflexivity.
  - reflexivity.
Qed.

(** No rejection escapes [setupSubscription]. *)
Lemma flow_handles_everything w :
  unhandled (flow module session search createSubscription w) = unhandled w
  /\ Eff.result (setupSubscription search createSubscription) w = Eff.Normal tt.
Proof.
  enter_flow.
  destruct (createSubscription (tier search)) as [r|v]; simpl.
  - destruct (Js.truthy (url r)); simpl; [|auto].
    unfold Eff.set_location_href. simpl.
    destruct (href_setter w _) as [[c m]|]; simpl; auto.
  - auto.
Qed.

(** Resolved with a URL the browser takes: the location is assigned and
    no setter of the state is called. *)
Lemma flow_redirects w r u :
  createSubscription (tier search) = Resolved r ->
  url r = Some u -> u <> EmptyString ->
  href_setter w u = None ->
  location_href (flow module session search createSubscription w) = Some u
  /\ history (flow module session search createSubscription w) = history w.
Proof.
  intros Hr Hu Hne Hs. enter_flow.
  rewrite Hr. simpl. rewrite Hu. simpl.
  apply truthy_string_true in Hne. rewrite Hne. simpl.
  unfold Eff.set_location_href. simpl. rewrite Hs. simpl. auto.
Qed.

(** Resolved with a URL the browser refuses: the assignment throws inside
    the [try]; the exception is logged, its message stored, loading
    ends, and the location stays. *)
Lemma flow_refused w r u c m :
  createSubscription (tier search) = Resolved r ->
  url r = Some u -> u <> EmptyString ->
  href_setter w u = Some (c, m) ->
  history (flow module session search createSubscription w)
  = {| isLoading := false; error := Some (String c m) |}
    :: {| isLoading := isLoading (current w); error := Some (String c m) |}
    :: history w
  /\ location_href (flow module session search createSubscription w)
     = location_href w
  /\ console (flow module session search createSubscription w)
     = console w ++ [("Error creating subscription:", Js.VError (String c m))].
Proof.
  intros Hr Hu Hne Hs. enter_flow.
  rewrite Hr. simpl. rewrite Hu. simpl.
  apply truthy_string_true in Hne. rewrite Hne. simpl.
  unfold Eff.set_location_href. simpl. rewrite Hs. simpl. auto.
Qed.

(** Resolved without a usable URL. *)
Lemma flow_no_url w r :
  createSubscription (tier search) = Resolved r ->
  Js.truthy (url r) = false ->
  history (flow module session search createSubscription w)
  = {| isLoading := false; error := Some "Failed to create checkout session" |}
    :: {| isLoading := isLoading (current w);
          error := Some "Failed to create checkout session" |}
    :: history w
  /\ location_href (flow module session search createSubscription w)
     = location_href w.
Proof.
  intros Hr Hu. enter_flow. rewrite Hr. simpl. rewrite Hu. simpl. auto.
Qed.

(** Rejected: the reason is logged, its message stored, loading ends. *)
Lemma flow_rejected w v :
  createSubscription (tier search) = Rejected v ->
  history (flow module session search createSubscription w)
  = {| isLoading := false; error := Some (rejection_message v) |}
    :: {| isLoading := isLoading (current w);
          error := Some (rejection_message v) |}
    :: history w
  /\ location_href (flow module session search createSubscription w)
     = location_href w
  /\ console (flow module session search createSubscription w)
     = console w ++ [("Error creating subscription:", v)].
Proof. intros Hr. enter_flow. rewrite Hr. simpl. auto. Qed.

End FlowFacts.

(** The first effect touches the document only. *)
Lemma metadata_effect_frame w :
  Eff.exec metadata_effect w =
  {| import_meta_env := import_meta_env w;
     href_setter := href_setter w;
     location_href := location_href w;
     navigations := navigations w;
     requests := requests w;
     console := console w;
     unhandled := unhandled w;
     document := inject_metadata (document w);
     history := history w |}.
Proof. reflexivity. Qed.

Lemma mount_is_flow_after_metadata module session search backend w :
  Eff.exec (mount module session search backend) w =
  flow module session search backend (Eff.exec metadata_effect w).
Proof. reflexivity. Qed.

(** ** What the page shows *)

Lemma render_error session msg :
  isAuthenticated session = true -> msg <> EmptyString ->
  render session {| isLoading := false; error := Some msg |} = ErrorView msg.
Proof.
  intros Ha Hm. unfold render. rewrite Ha. simpl.
  apply truthy_string_true in Hm. now rewrite Hm.
Qed.

Lemma render_loading session e :
  isAuthenticated session = true ->
  render session {| isLoading := true; error := e |} = LoadingView.
Proof. intros Ha. unfold render. now rewrite Ha. Qed.



(* ------------------------------------------------------------------ *)
(** ** C1: which tier the requester is called with *)

(** C1, as stated, fails: the query value [gold] is the name of no tier,
    yet the requester is called with [gold], not with the Basic tier. *)
Lemma C1_unrecognized_tier_is_passed_on :
  SubscriptionTier.recognized "gold" = false
  /\ requests
       (flow (import_module {| VITE_STRIPE_PUBLIC_KEY := Some "pk_test_51" |})
             {| isAuthenticated := true |}
             [("tier", "gold")]
             (fun _ => Resolved {| url := Some "https://pay.example/session/abc" |})
             (fresh_world sample_setter {| VITE_STRIPE_PUBLIC_KEY := Some "pk_test_51" |}
                          {| Dom.nodes := [] |}))
     <> [SubscriptionTier.value SubscriptionTier.Basic].
Proof. split; [reflexivity | discriminate]. Qed.

(** C1 (amended): for an authenticated session and a configured provider,
    the requester is called exactly once, with the Pro tier when the tier
    parameter is [pro], with the Basic tier when the parameter is absent
    or the empty string, and with the parameter's own string, unchecked,
    for every other value. *)
Theorem C1_tier_of_query module session search backend w :
  isAuthenticated session = true ->
  isStripeAvailable module = true ->
  exists t,
    requests (flow module session search backend w) = requests w ++ [t]
    /\ (params_get search "tier" = Some "pro" ->
        t = SubscriptionTier.value SubscriptionTier.Pro)
    /\ (params_get search "tier" = None \/ params_get search "tier" = Some EmptyString ->
        t = SubscriptionTier.value SubscriptionTier.Basic)
    /\ (forall s, params_get search "tier" = Some s -> s <> EmptyString -> t = s).
Proof.
  intros Ha Hm. exists (tier search). split; [now apply flow_requests|].
  unfold tier. repeat split.
  - intros ->. reflexivity.
  - intros [-> | ->]; reflexivity.
  - intros s -> Hs. simpl. apply truthy_string_true in Hs. now rewrite Hs.
Qed.

Lemma C1_tier_of_query_witness :
  exists t,
    requests
      (flow (import_module {| VITE_STRIPE_PUBLIC_KEY := Some "pk_test_51" |})
            {| isAuthenticated := true |}
            [("utm", "mail"); ("tier", "pro"); ("tier", "power")]
            (fun _ => Resolved {| url := None |})
            (fresh_world sample_setter {| VITE_STRIPE_PUBLIC_KEY := None |}
                         {| Dom.nodes := [] |}))
    = [] ++ [t]
    /\ (params_get [("utm", "mail"); ("tier", "pro"); ("tier", "power")] "tier"
          = Some "pro" ->
        t = SubscriptionTier.value SubscriptionTier.Pro)
    /\ (params_get [("utm", "mail"); ("tier", "pro"); ("tier", "power")] "tier" = None
        \/ params_get [("utm", "mail"); ("tier", "pro"); ("tier", "power")] "tier"
           = Some EmptyString ->
        t = SubscriptionTier.value SubscriptionTier.Basic)
    /\ (forall s,
          params_get [("utm", "mail"); ("tier", "pro"); ("tier", "power")] "tier"
            = Some s -> s <> EmptyString -> t = s).
Proof.
  apply (C1_tier_of_query
           (import_module {| VITE_STRIPE_PUBLIC_KEY := Some "pk_test_51" |})
           {| isAuthenticated := true |}
           [("utm", "mail"); ("tier", "pro"); ("tier", "power")]
           (fun _ => Resolved {| url := None |})
           (fresh_world sample_setter {| VITE_STRIPE_PUBLIC_KEY := None |}
                        {| Dom.nodes := [] |}));
    reflexivity.
Defined.

(* ------------------------------------------------------------------ *)
(** ** C2: the views of one run *)




(* ------------------------------------------------------------------ *)
(** ** C3: provider not configured *)

(** C3: for an authenticated session, when the publishable key is absent
    or empty (so that the flag of the module is false), mounting the page
    ends in the Error state with the fixed message that the payment system
    is not configured, and [createSubscription] is not called. *)
Theorem C3_unconfigured_provider env session search backend w :
  isAuthenticated session = true ->
  VITE_STRIPE_PUBLIC_KEY env = None
  \/ VITE_STRIPE_PUBLIC_KEY env = Some EmptyString ->
  isStripeAvailable (import_module env) = false
  /\ current (Eff.exec (mount (import_module env) session search backend) w)
     = {| isLoading := false; error := Some not_configured |}
  /\ view session (Eff.exec (mount (import_module env) session search backend) w)
     = ErrorView not_configured
  /\ requests (Eff.exec (mount (import_module env) session search backend) w)
     = requests w.
Proof.
  intros Ha Hkey.
  assert (Hm : isStripeAvailable (import_module env) = false)
    by (now apply truthy_absent_or_empty).
  rewrite mount_is_flow_after_metadata.
  destruct (flow_not_configured (import_module env) session search backend Ha
              (Eff.exec metadata_effect w) Hm) as [Hh [Hr _]].
  unfold view, current. rewrite Hh, Hr. simpl.
  repeat split; try assumption.
  apply render_error; [exact Ha | discriminate].
Qed.

Lemma C3_unconfigured_provider_witness :
  isStripeAvailable (import_module {| VITE_STRIPE_PUBLIC_KEY := Some EmptyString |})
  = false
  /\ current
       (Eff.exec
          (mount (import_module {| VITE_STRIPE_PUBLIC_KEY := Some EmptyString |})
                 signed_in [("tier", "power")]
                 (fun _ => Resolved {| url := Some pay_url |}))
          (fresh_world sample_setter {| VITE_STRIPE_PUBLIC_KEY := Some EmptyString |} sample_document))
     = {| isLoading := false; error := Some not_configured |}
  /\ view signed_in
       (Eff.exec
          (mount (import_module {| VITE_STRIPE_PUBLIC_KEY := Some EmptyString |})
                 signed_in [("tier", "power")]
                 (fun _ => Resolved {| url := Some pay_url |}))
          (fresh_world sample_setter {| VITE_STRIPE_PUBLIC_KEY := Some EmptyString |} sample_document))
     = ErrorView not_configured
  /\ requests
       (Eff.exec
          (mount (import_module {| VITE_STRIPE_PUBLIC_KEY := Some EmptyString |})
                 signed_in [("tier", "power")]
                 (fun _ => Resolved {| url := Some pay_url |}))
          (fresh_world sample_setter {| VITE_STRIPE_PUBLIC_KEY := Some EmptyString |} sample_document))
     = [].
Proof.
  apply (C3_unconfigured_provider
           {| VITE_STRIPE_PUBLIC_KEY := Some EmptyString |}
           signed_in [("tier", "power")]
           (fun _ => Resolved {| url := Some pay_url |})
           (fresh_world sample_setter {| VITE_STRIPE_PUBLIC_KEY := Some EmptyString |} sample_document)).
  - reflexivity.
  - right. reflexivity.
Defined.

(* ------------------------------------------------------------------ *)
(** ** C4: rejections *)

(** C4: with an authenticated session and a configured provider, a
    rejection with an Error whose message is [card declined] puts the page
    in the Error state with that message; a rejection with a value that is
    no Error puts it in the Error state with the generic message; and
    however the request settles, [setupSubscription] completes normally
    and no rejection is left unhandled. *)
Theorem C4_rejections_become_errors module session search backend w :
  isAuthenticated session = true ->
  isStripeAvailable module = true ->
  (backend (tier search) = Rejected (Js.VError "card declined") ->
   current (flow module session search backend w)
   = {| isLoading := false; error := Some "card declined" |}
   /\ view session (flow module session search backend w)
      = ErrorView "card declined")
  /\ (forall v,
        Js.instanceof_Error v = false ->
        backend (tier search) = Rejected v ->
        current (flow module session search backend w)
        = {| isLoading := false; error := Some "Failed to create subscription" |}
        /\ view session (flow module session search backend w)
           = ErrorView "Failed to create subscription")
  /\ unhandled (flow module session search backend w) = unhandled w
  /\ Eff.result (setupSubscription search backend) w = Eff.Normal tt.
Proof.
  intros Ha Hm. split; [|split].
  - intros Hb.
    destruct (flow_rejected module session search backend Ha Hm w _ Hb) as [Hh _].
    unfold view, current. rewrite Hh. simpl. split; [reflexivity|].
    apply render_error; [exact Ha | discriminate].
  - intros v Hv Hb.
    destruct (flow_rejected module session search backend Ha Hm w _ Hb) as [Hh _].
    unfold view, current. rewrite Hh. unfold rejection_message. rewrite Hv. simpl.
    split; [reflexivity|].
    apply render_error; [exact Ha | discriminate].
  - exact (flow_handles_everything module session search backend Ha Hm w).
Qed.

Lemma C4_rejections_become_errors_witness :
  view signed_in
    (flow (import_module configured) signed_in [("tier", "pro")]
          (fun _ => Rejected (Js.VObject [("message", "card declined")]))
          (fresh_world sample_setter configured sample_document))
  = ErrorView "Failed to create subscription"
  /\ unhandled
       (flow (import_module configured) signed_in [("tier", "pro")]
             (fun _ => Rejected (Js.VObject [("message", "card declined")]))
             (fresh_world sample_setter configured sample_document))
     = [].
Proof.
  destruct (C4_rejections_become_errors
              (import_module configured) signed_in [("tier", "pro")]
              (fun _ => Rejected (Js.VObject [("message", "card declined")]))
              (fresh_world sample_setter configured sample_document)
              eq_refl eq_refl) as [_ [Hother [Hun _]]].
  split.
  - apply (Hother (Js.VObject [("message", "card declined")]) eq_refl eq_refl).
  - exact Hun.
Defined.

(* ------------------------------------------------------------------ *)
(** ** C5: the redirect *)

(** C5: with an authenticated session and a configured provider, when the
    request resolves with a non-empty URL string (one that the browser
    parses as a URL, so that the assignment goes through) the location is
    set to exactly that URL and no setter of the state is called: the
    state of the page is what it was, and a run started from the initial
    state has rendered no Error view. *)
Theorem C5_redirect_to_checkout module session search backend w u :
  isAuthenticated session = true ->
  isStripeAvailable module = true ->
  backend (tier search) = Resolved {| url := Some u |} ->
  u <> EmptyString ->
  href_setter w u = None ->
  location_href (flow module session search backend w) = Some u
  /\ history (flow module session search backend w) = history w
  /\ (history w = [initial_state] ->
      views session (flow module session search backend w) = [LoadingView]
      /\ forall msg,
           ~ In (ErrorView msg) (views session (flow module session search backend w))).
Proof.
  intros Ha Hm Hb Hu Hs.
  destruct (flow_redirects module session search backend Ha Hm w _ u Hb eq_refl Hu Hs)
    as [Hl Hh].
  split; [exact Hl|]. split; [exact Hh|].
  intros Hw.
  assert (Hv : views session (flow module session search backend w) = [LoadingView]).
  { unfold views. rewrite Hh, Hw. simpl. unfold initial_state.
    now rewrite render_loading. }
  split; [exact Hv|].
  intros msg Hin. rewrite Hv in Hin. simpl in Hin.
  destruct Hin as [H|[]]. discriminate.
Qed.

Lemma C5_redirect_to_checkout_witness :
  location_href
    (flow (import_module configured) signed_in [("tier", "pro")]
          (fun _ => Resolved {| url := Some pay_url |})
          (fresh_world sample_setter configured sample_document))
  = Some "https://pay.example/session/abc"
  /\ history
       (flow (import_module configured) signed_in [("tier", "pro")]
             (fun _ => Resolved {| url := Some pay_url |})
             (fresh_world sample_setter configured sample_document))
     = [initial_state].
Proof.
  destruct (C5_redirect_to_checkout
              (import_module configured) signed_in [("tier", "pro")]
              (fun _ => Resolved {| url := Some pay_url |})
              (fresh_world sample_setter configured sample_document) pay_url
              eq_refl eq_refl eq_refl) as [Hl [Hh _]].
  - discriminate.
  - reflexivity.
  - split; [exact Hl | exact Hh].
Defined.

(* ------------------------------------------------------------------ *)
(** ** C6 and C9: no usable URL *)

(** C6: with an authenticated session and a configured provider, when the
    request resolves with a result that has no URL, the page enters the
    Error state with exactly the message [Failed to create checkout
    session] and the location is left alone. *)
Theorem C6_missing_url module session search backend w r :
  isAuthenticated session = true ->
  isStripeAvailable module = true ->
  backend (tier search) = Resolved r ->
  url r = None ->
  current (flow module session search backend w)
  = {| isLoading := false; error := Some "Failed to create checkout session" |}
  /\ view session (flow module session search backend w)
     = ErrorView "Failed to create checkout session"
  /\ location_href (flow module session search backend w) = location_href w.
Proof.
  intros Ha Hm Hb Hu.
  assert (Hf : Js.truthy (url r) = false) by (now rewrite Hu).
  destruct (flow_no_url module session search backend Ha Hm w r Hb Hf) as [Hh Hl].
  unfold view, current. rewrite Hh. simpl. repeat split; try assumption.
  apply render_error; [exact Ha | discriminate].
Qed.

Lemma C6_missing_url_witness :
  view signed_in
    (flow (import_module configured) signed_in []
          (fun _ => Resolved {| url := None |})
          (fresh_world sample_setter configured sample_document))
  = ErrorView "Failed to create checkout session"
  /\ location_href
       (flow (import_module configured) signed_in []
             (fun _ => Resolved {| url := None |})
             (fresh_world sample_setter configured sample_document))
     = None.
Proof.
  destruct (C6_missing_url
              (import_module configured) signed_in []
              (fun _ => Resolved {| url := None |})
              (fresh_world sample_setter configured sample_document) {| url := None |}
              eq_refl eq_refl eq_refl eq_refl) as [_ [Hv Hl]].
  split; [exact Hv | exact Hl].
Defined.

(** C9: with an authenticated session and a configured provider, a result
    whose [url] is the empty string is handled as the result without URL:
    Error state with the message [Failed to create checkout session], and
    the location is not changed. *)
Theorem C9_empty_url module session search backend w :
  isAuthenticated session = true ->
  isStripeAvailable module = true ->
  backend (tier search) = Resolved {| url := Some EmptyString |} ->
  current (flow module session search backend w)
  = {| isLoading := false; error := Some "Failed to create checkout session" |}
  /\ view session (flow module session search backend w)
     = ErrorView "Failed to create checkout session"
  /\ location_href (flow module session search backend w) = location_href w.
Proof.
  intros Ha Hm Hb.
  destruct (flow_no_url module session search backend Ha Hm w _ Hb eq_refl)
    as [Hh Hl].
  unfold view, current. rewrite Hh. simpl. repeat split; try assumption.
  apply render_error; [exact Ha | discriminate].
Qed.

Lemma C9_empty_url_witness :
  view signed_in
    (flow (import_module configured) signed_in [("tier", "basic")]
          (fun _ => Resolved {| url := Some EmptyString |})
          (set_env configured
             (flow (import_module configured) signed_in [("tier", "basic")]
                   (fun _ => Resolved {| url := Some pay_url |})
                   (fresh_world sample_setter configured sample_document))))
  = ErrorView "Failed to create checkout session"
  /\ location_href
       (flow (import_module configured) signed_in [("tier", "basic")]
             (fun _ => Resolved {| url := Some EmptyString |})
             (set_env configured
                (flow (import_module configured) signed_in [("tier", "basic")]
                      (fun _ => Resolved {| url := Some pay_url |})
                      (fresh_world sample_setter configured sample_document))))
     = Some pay_url.
Proof.
  destruct (C9_empty_url
              (import_module configured) signed_in [("tier", "basic")]
              (fun _ => Resolved {| url := Some EmptyString |})
              (set_env configured
                 (flow (import_module configured) signed_in [("tier", "basic")]
                       (fun _ => Resolved {| url := Some pay_url |})
                       (fresh_world sample_setter configured sample_document)))
              eq_refl eq_refl eq_refl) as [_ [Hv Hl]].
  split; [exact Hv | exact Hl].
Defined.

(* ------------------------------------------------------------------ *)
(** ** C10: rejection with an empty message *)

(** C10: with an authenticated session and a configured provider, when the
    request rejects with an Error whose message is the empty string, the
    stored error message is the empty string, loading has ended, and the
    page renders the card titled Redirecting to Checkout, not the Error
    view, although the location was never assigned. *)
Theorem C10_empty_error_message module session search backend w :
  isAuthenticated session = true ->
  isStripeAvailable module = true ->
  backend (tier search) = Rejected (Js.VError EmptyString) ->
  current (flow module session search backend w)
  = {| isLoading := false; error := Some EmptyString |}
  /\ view session (flow module session search backend w) = RedirectingView
  /\ (forall msg, view session (flow module session search backend w) <> ErrorView msg)
  /\ location_href (flow module session search backend w) = location_href w.
Proof.
  intros Ha Hm Hb.
  destruct (flow_rejected module session search backend Ha Hm w _ Hb) as [Hh [Hl _]].
  unfold view, current. rewrite Hh. simpl. unfold render. rewrite Ha. simpl.
  repeat split; try assumption. intros msg. discriminate.
Qed.

Lemma C10_empty_error_message_witness :
  view signed_in
    (flow (import_module configured) signed_in []
          (fun _ => Rejected (Js.VError EmptyString))
          (fresh_world sample_setter configured sample_document))
  = RedirectingView
  /\ location_href
       (flow (import_module configured) signed_in []
             (fun _ => Rejected (Js.VError EmptyString))
             (fresh_world sample_setter configured sample_document))
     = None.
Proof.
  destruct (C10_empty_error_message
              (import_module configured) signed_in []
              (fun _ => Rejected (Js.VError EmptyString))
              (fresh_world sample_setter configured sample_document)
              eq_refl eq_refl eq_refl) as [_ [Hv [_ Hl]]].
  split; [exact Hv | exact Hl].
Defined.

(* ------------------------------------------------------------------ *)
(** ** C7: when the provider flag is computed *)




(* ------------------------------------------------------------------ *)
(** ** The document: counting, searching, removing *)

(** Induction on nodes that reaches all the children of an element. *)
Lemma Node_children_ind (P : Dom.Node -> Prop) :
  (forall d, P (Dom.Text d)) ->
  (forall t a cs, Forall P cs -> P (Dom.Element t a cs)) ->
  forall n, P n.
Proof.
  intros HT HE. fix IH 1. intros [d|t a cs].
  - apply HT.
  - apply HE. induction cs as [|c cs IHcs]; constructor.
    + apply IH.
    + exact IHcs.
Qed.

Lemma count_all_cons s n l :
  Dom.count_all s (n :: l) = Dom.count s n + Dom.count_all s l.
Proof. reflexivity. Qed.

Lemma count_all_app s l1 l2 :
  Dom.count_all s (l1 ++ l2) = Dom.count_all s l1 + Dom.count_all s l2.
Proof.
  unfold Dom.count_all. rewrite map_app. apply list_sum_app.
Qed.

Lemma count_element s t a cs :
  Dom.count s (Dom.Element t a cs) =
  (if Dom.matches s (Dom.Element t a cs) then 1 else 0) + Dom.count_all s cs.
Proof. reflexivity. Qed.

Lemma remove_at_cons j q n l :
  Dom.remove_at (S j :: q) (n :: l) = n :: Dom.remove_at (j :: q) l.
Proof. destruct q; reflexivity. Qed.

Lemma query_element s t a cs :
  Dom.query s (Dom.Element t a cs) =
  if Dom.matches s (Dom.Element t a cs) then Some []
  else Dom.first_some 0 (map (Dom.query s) cs).
Proof. reflexivity. Qed.

Lemma first_some_index i l p :
  Dom.first_some i l = Some p -> exists j q, p = j :: q /\ i <= j.
Proof.
  revert i. induction l as [|[q0|] l IHl]; intros i; simpl.
  - discriminate.
  - intros [= <-]. exists i, q0. auto.
  - intros H. destruct (IHl _ H) as [j [q [-> Hle]]]. exists j, q. split; [reflexivity|lia].
Qed.

Section Counting.

Variable s : Dom.Selector.

(** A search that answers the node itself means that the node matches. *)
Lemma query_here n : Dom.query s n = Some [] -> Dom.matches s n = true.
Proof.
  destruct n as [d|t a cs]; [discriminate|].
  rewrite query_element.
  destruct (Dom.matches s (Dom.Element t a cs)); [reflexivity|].
  intros H. apply first_some_index in H. destruct H as [j [q [H _]]]. discriminate.
Qed.

Lemma first_some_none_sum i l :
  Forall (fun n => Dom.query s n = None -> Dom.count s n = 0) l ->
  Dom.first_some i (map (Dom.query s) l) = None -> Dom.count_all s l = 0.
Proof.
  intros HF. revert i. induction HF as [|c l Hc _ IHl]; intros i H; [reflexivity|].
  rewrite count_all_cons. simpl in H.
  destruct (Dom.query s c) eqn:Hq; [discriminate|].
  rewrite (Hc eq_refl). simpl. exact (IHl _ H).
Qed.

(** Nothing found means nothing there. *)
Lemma query_none_count n : Dom.query s n = None -> Dom.count s n = 0.
Proof.
  induction n as [d|t a cs IH] using Node_children_ind; intros H.
  - reflexivity.
  - rewrite count_element. rewrite query_element in H.
    destruct (Dom.matches s (Dom.Element t a cs)); [discriminate|].
    simpl. exact (first_some_none_sum 0 cs IH H).
Qed.

Lemma first_some_none_count i l :
  Dom.first_some i (map (Dom.query s) l) = None -> Dom.count_all s l = 0.
Proof.
  apply first_some_none_sum. apply Forall_forall.
  intros n _. apply query_none_count.
Qed.

(** Removing the node a search found takes at least that node away. *)
Lemma first_some_remove_count l :
  Forall (fun n => forall t a cs q,
              n = Dom.Element t a cs ->
              Dom.first_some 0 (map (Dom.query s) cs) = Some q ->
              Dom.count_all s (Dom.remove_at q cs) < Dom.count_all s cs) l ->
  forall i p,
    Dom.first_some i (map (Dom.query s) l) = Some p ->
    exists j q, p = (i + j) :: q
                /\ Dom.count_all s (Dom.remove_at (j :: q) l) < Dom.count_all s l.
Proof.
  induction 1 as [|c l Hc _ IHl]; intros i p H; simpl in H; [discriminate|].
  destruct (Dom.query s c) as [q0|] eqn:Hq.
  - injection H as <-. exists 0, q0. split; [f_equal; lia|].
    rewrite count_all_cons. destruct q0 as [|k q0].
    + simpl. apply query_here in Hq.
      destruct c as [d|t a cs]; [discriminate|].
      rewrite count_element, Hq. lia.
    + destruct c as [d|t a cs]; [discriminate|].
      rewrite query_element in Hq.
      destruct (Dom.matches s (Dom.Element t a cs)) eqn:Hm; [discriminate|].
      change (Dom.remove_at (0 :: k :: q0) (Dom.Element t a cs :: l))
        with (Dom.Element t a (Dom.remove_at (k :: q0) cs) :: l).
      rewrite count_all_cons, !count_element.
      change (Dom.matches s (Dom.Element t a (Dom.remove_at (k :: q0) cs)))
        with (Dom.matches s (Dom.Element t a cs)).
      rewrite Hm.
      specialize (Hc t a cs (k :: q0) eq_refl Hq). lia.
  - destruct (IHl _ _ H) as [j [q [-> Hlt]]].
    exists (S j), q. split; [f_equal; lia|].
    rewrite remove_at_cons, !count_all_cons. lia.
Qed.

Lemma remove_found_count l p :
  Dom.querySelector s l = Some p ->
  Dom.count_all s (Dom.remove_at p l) < Dom.count_all s l.
Proof.
  assert (Hall : forall n : Dom.Node,
             forall t a cs q,
               n = Dom.Element t a cs ->
               Dom.first_some 0 (map (Dom.query s) cs) = Some q ->
               Dom.count_all s (Dom.remove_at q cs) < Dom.count_all s cs).
  { induction n as [d|t a cs IH] using Node_children_ind;
      intros t' a' cs' q Heq Hq; [discriminate|].
    injection Heq as <- <- <-.
    destruct (first_some_remove_count cs IH 0 _ Hq) as [j [q' [-> Hlt]]].
    exact Hlt. }
  intros H. unfold Dom.querySelector in H.
  assert (HF : Forall (fun n => forall t a cs q,
              n = Dom.Element t a cs ->
              Dom.first_some 0 (map (Dom.query s) cs) = Some q ->
              Dom.count_all s (Dom.remove_at q cs) < Dom.count_all s cs) l)
    by (apply Forall_forall; intros n _; apply Hall).
  destruct (first_some_remove_count l HF 0 _ H) as [j [q [-> Hlt]]].
  exact Hlt.
Qed.

Lemma not_found_count l :
  Dom.querySelector s l = None -> Dom.count_all s l = 0.
Proof. apply first_some_none_count. Qed.

End Counting.

(** ** Attributes and counts *)

Lemma getAttribute_setAttribute_other a k v k' :
  String.eqb k k' = false ->
  Dom.getAttribute (Dom.setAttribute a k v) k' = Dom.getAttribute a k'.
Proof.
  intros Hk. induction a as [|[k0 v0] a IH]; simpl.
  - now rewrite Hk.
  - destruct (String.eqb k0 k) eqn:E; simpl.
    + apply String.eqb_eq in E. subst k0. now rewrite Hk.
    + destruct (String.eqb k0 k'); [reflexivity | exact IH].
Qed.

(** Writing an attribute other than [id] does not change what [tag#id]
    matches. *)
Lemma matches_id_set_attr tag id n k v :
  String.eqb k "id" = false ->
  Dom.matches (Dom.TagId tag id) (Dom.set_attr n k v)
  = Dom.matches (Dom.TagId tag id) n.
Proof.
  intros Hk. destruct n as [d|t a cs]; [reflexivity|].
  simpl. unfold Dom.attr_is. now rewrite getAttribute_setAttribute_other.
Qed.

Lemma count_update_nth s f i l :
  (forall n, Dom.count s (f n) = Dom.count s n) ->
  Dom.count_all s (Dom.update_nth i f l) = Dom.count_all s l.
Proof.
  intros Hf. revert i. induction l as [|c l IHl]; intros [|i]; simpl;
    try reflexivity; rewrite !count_all_cons.
  - now rewrite Hf.
  - now rewrite IHl.
Qed.

Lemma count_on_children s g n :
  (forall cs, Dom.count_all s (g cs) = Dom.count_all s cs) ->
  Dom.count s (Dom.on_children g n) = Dom.count s n.
Proof.
  intros Hg. destruct n as [d|t a cs]; [reflexivity|].
  simpl Dom.on_children. rewrite !count_element.
  change (Dom.matches s (Dom.Element t a (g cs)))
    with (Dom.matches s (Dom.Element t a cs)).
  now rewrite Hg.
Qed.

Lemma count_id_set_attr tag id n k v :
  String.eqb k "id" = false ->
  Dom.count (Dom.TagId tag id) (Dom.set_attr n k v) = Dom.count (Dom.TagId tag id) n.
Proof.
  intros Hk. pose proof (matches_id_set_attr tag id n k v Hk) as Hm.
  destruct n as [d|t a cs]; [reflexivity|].
  simpl Dom.set_attr in *. rewrite !count_element. now rewrite Hm.
Qed.

Lemma count_id_set_attr_at tag id k v p l :
  String.eqb k "id" = false ->
  Dom.count_all (Dom.TagId tag id) (Dom.set_attr_at p k v l)
  = Dom.count_all (Dom.TagId tag id) l.
Proof.
  intros Hk. revert l. induction p as [|i q IH]; intros l; [reflexivity|].
  destruct q as [|j q].
  - apply count_update_nth. intros n. now apply count_id_set_attr.
  - apply count_update_nth. intros n. apply count_on_children. exact IH.
Qed.

Lemma count_update_description l :
  Dom.count_all schema_selector (update_description l)
  = Dom.count_all schema_selector l.
Proof.
  unfold update_description.
  destruct (Dom.querySelector _ l); [|reflexivity].
  now apply count_id_set_attr_at.
Qed.

(** ** Documents with an [html] root and its [head] *)

Lemma set_attr_at_html_document p k v a ha in_head rest :
  exists a' ha' in_head' rest',
    Dom.set_attr_at p k v (html_document a ha in_head rest)
    = html_document a' ha' in_head' rest'.
Proof.
  unfold html_document.
  destruct p as [|[|i] [|[|j] [|k0 q]]]; repeat eexists; reflexivity.
Qed.

Lemma update_description_html_document a ha in_head rest :
  exists a' ha' in_head' rest',
    update_description (html_document a ha in_head rest)
    = html_document a' ha' in_head' rest'.
Proof.
  unfold update_description.
  destruct (Dom.querySelector _ _).
  - apply set_attr_at_html_document.
  - repeat eexists.
Qed.

Lemma count_html_document a ha in_head rest :
  Dom.count_all schema_selector (html_document a ha in_head rest)
  = Dom.count_all schema_selector in_head + Dom.count_all schema_selector rest.
Proof.
  unfold html_document.
  rewrite !count_all_cons, !count_element, !count_all_cons, !count_element.
  change (Dom.matches schema_selector (Dom.Element "html" a _)) with false.
  change (Dom.matches schema_selector (Dom.Element "head" ha in_head)) with false.
  change (Dom.count_all schema_selector []) with 0. cbv iota. lia.
Qed.

Lemma head_of_html_document a ha in_head rest :
  Dom.querySelector (Dom.Tag "head") (html_document a ha in_head rest) = Some [0; 0].
Proof. reflexivity. Qed.

Lemma schema_of_html_document a ha in_head rest :
  Dom.querySelector schema_selector (html_document a ha in_head rest)
  = match
      match Dom.querySelector schema_selector in_head with
      | Some q => Some (0 :: q)
      | None => Dom.first_some 1 (map (Dom.query schema_selector) rest)
      end
    with
    | Some q => Some (0 :: q)
    | None => None
    end.
Proof. reflexivity. Qed.


(** ** The title *)

Lemma count_update_nth_le s f i l :
  (forall n, Dom.count s (f n) <= Dom.count s n) ->
  Dom.count_all s (Dom.update_nth i f l) <= Dom.count_all s l.
Proof.
  intros Hf. revert i. induction l as [|c l IHl]; intros [|i]; simpl;
    try lia; rewrite !count_all_cons.
  - specialize (Hf c). lia.
  - specialize (IHl i). lia.
Qed.

Lemma count_on_children_le s g n :
  (forall cs, Dom.count_all s (g cs) <= Dom.count_all s cs) ->
  Dom.count s (Dom.on_children g n) <= Dom.count s n.
Proof.
  intros Hg. destruct n as [d|t a cs]; [simpl; lia|].
  simpl Dom.on_children. rewrite !count_element.
  change (Dom.matches s (Dom.Element t a (g cs)))
    with (Dom.matches s (Dom.Element t a cs)).
  specialize (Hg cs). lia.
Qed.

(** Putting children without match in the place of the children of an
    element adds no match. *)
Lemma count_set_children_at_le s p cs l :
  Dom.count_all s cs = 0 ->
  Dom.count_all s (Dom.set_children_at p cs l) <= Dom.count_all s l.
Proof.
  intros Hcs. revert l. induction p as [|i q IH]; intros l; [simpl; lia|].
  destruct q as [|j q].
  - apply count_update_nth_le. intros n. apply count_on_children_le.
    intros cs0. lia.
  - apply count_update_nth_le. intros n. apply count_on_children_le. exact IH.
Qed.

Lemma count_text_children s x :
  Dom.count_all s (if Js.truthy_string x then [Dom.Text x] else []) = 0.
Proof. destruct (Js.truthy_string x); reflexivity. Qed.

Lemma head_element_html_document a ha in_head rest :
  Dom.head_element (html_document a ha in_head rest) = Some [0; 0].
Proof. reflexivity. Qed.

Lemma title_of_html_document a ha in_head rest :
  Dom.querySelector (Dom.Tag "title") (html_document a ha in_head rest)
  = match
      match Dom.querySelector (Dom.Tag "title") in_head with
      | Some q => Some (0 :: q)
      | None => Dom.first_some 1 (map (Dom.query (Dom.Tag "title")) rest)
      end
    with
    | Some q => Some (0 :: q)
    | None => None
    end.
Proof. reflexivity. Qed.

(** Assigning the title keeps the root and the head in place and adds no
    schema script. *)
Lemma set_title_html_document x a ha in_head rest :
  exists in_head' rest',
    Dom.set_title x (html_document a ha in_head rest)
    = html_document a ha in_head' rest'
    /\ Dom.count_all schema_selector in_head' + Dom.count_all schema_selector rest'
       <= Dom.count_all schema_selector in_head + Dom.count_all schema_selector rest.
Proof.
  unfold Dom.set_title.
  pose proof (count_text_children schema_selector x) as Htext.
  revert Htext. generalize (if Js.truthy_string x then [Dom.Text x] else []).
  intros text Htext.
  rewrite head_element_html_document, title_of_html_document.
  destruct (Dom.querySelector (Dom.Tag "title") in_head) as [q|] eqn:Hq.
  - destruct (first_some_index _ _ _ Hq) as [j [q' [-> _]]].
    exists (Dom.set_children_at (j :: q') text in_head), rest.
    split; [reflexivity|].
    pose proof (count_set_children_at_le schema_selector (j :: q') text in_head Htext).
    lia.
  - destruct (Dom.first_some 1 (map (Dom.query (Dom.Tag "title")) rest))
      as [q|] eqn:Hr.
    + destruct (first_some_index _ _ _ Hr) as [[|j] [q' [-> Hj]]]; [lia|].
      exists in_head, (Dom.set_children_at (j :: q') text rest).
      split; [destruct q'; reflexivity|].
      pose proof (count_set_children_at_le schema_selector (j :: q') text rest Htext).
      lia.
    + exists (in_head ++ [Dom.Element "title" [] text]), rest.
      split; [reflexivity|].
      rewrite count_all_app, count_all_cons, count_element.
      change (Dom.matches schema_selector (Dom.Element "title" [] text)) with false.
      change (Dom.count_all schema_selector []) with 0. cbv iota. lia.
Qed.



(** Why the two conditions of C8 are there: without a [head] the injector
    inserts nothing, and of several schema scripts already present it
    removes only the first. *)
Lemma replace_schema_without_head ns :
  Dom.querySelector (Dom.Tag "head") ns = None -> replace_schema ns = ns.
Proof. intros H. unfold replace_schema. now rewrite H. Qed.

Example replace_schema_keeps_duplicates :
  Dom.count_all schema_selector
    (replace_schema
       (html_document [] []
          [Dom.Element "script" [("id", "subscription-schema")] [];
           Dom.Element "script" [("id", "subscription-schema")] []]
          []))
  = 2.
Proof. reflexivity. Qed.

(* ------------------------------------------------------------------ *)
(** ** C8: metadata injection is idempotent *)



(* ================================================================== *)
(** * Further properties of the page *)

(** Open the checkout effect in every way it can go: session signed in or
    not, provider configured or not, request resolved with a non-empty URL
    that the browser refuses or accepts, with an empty or no URL, or
    rejected. *)
Ltac every_flow module session search backend :=
  unfold view, views, current, flow, mount, metadata_effect, Eff.on_document,
    Eff.exec, Eff.result, Eff.bind, checkout_effect;
  destruct (isAuthenticated session) eqn:?; simpl;
  [ destruct (isStripeAvailable module) eqn:?; simpl;
    [ unfold Eff.detached, setupSubscription, Eff.try_catch, Eff.bind, Eff.request;
      destruct (backend (tier search)) as [[[[|? ?]|]]|?] eqn:?; simpl;
      unfold Eff.set_location_href; simpl;
      try (destruct (href_setter _ _) as [[? ?]|] eqn:?; simpl)
    | ]
  | ].

(* ------------------------------------------------------------------ *)
(** ** X1: the access guard *)

(** X1: for a session that is not authenticated the effect calls
    [navigate] once, with the home route, and does nothing else: no
    request, no state change, no assignment of the location, nothing
    logged; and the component renders nothing, whatever its state. *)
Theorem X1_unauthenticated_guard module session search backend w :
  isAuthenticated session = false ->
  navigations (flow module session search backend w) = navigations w ++ ["/"]
  /\ requests (flow module session search backend w) = requests w
  /\ history (flow module session search backend w) = history w
  /\ location_href (flow module session search backend w) = location_href w
  /\ console (flow module session search backend w) = console w
  /\ unhandled (flow module session search backend w) = unhandled w
  /\ forall st, render session st = Nothing.
Proof.
  intros Ha. unfold flow, Eff.exec, checkout_effect, render. rewrite Ha. simpl.
  repeat split; reflexivity.
Qed.

Lemma X1_unauthenticated_guard_witness :
  navigations
    (flow (import_module configured) {| isAuthenticated := false |} [("tier", "pro")]
          (fun _ => Resolved {| url := Some pay_url |})
          (fresh_world sample_setter configured sample_document))
  = ["/"]
  /\ requests
       (flow (import_module configured) {| isAuthenticated := false |} [("tier", "pro")]
             (fun _ => Resolved {| url := Some pay_url |})
             (fresh_world sample_setter configured sample_document))
     = [].
Proof.
  destruct (X1_unauthenticated_guard
              (import_module configured) {| isAuthenticated := false |} [("tier", "pro")]
              (fun _ => Resolved {| url := Some pay_url |})
              (fresh_world sample_setter configured sample_document) eq_refl)
    as [Hn [Hr _]].
  split; [exact Hn | exact Hr].
Defined.

(* ------------------------------------------------------------------ *)
(** ** X2: when the backend is asked *)

(** X2: a run of the effect calls [createSubscription] at most once, with
    [tier], and it does so exactly when the session is authenticated and
    the provider flag is set. *)
Theorem X2_request_iff_guards_pass module session search backend w :
  requests (flow module session search backend w)
  = if isAuthenticated session && isStripeAvailable module
    then requests w ++ [tier search]
    else requests w.
Proof.
  every_flow module session search backend.
  all: reflexivity.
Qed.

(* ------------------------------------------------------------------ *)
(** ** X3: the tier is never empty *)

(** X3: whatever the query string, the tier handed to the requester is not
    the empty string: it is the first [tier] value of the query when that
    value is not empty, and the Basic tier otherwise. *)
Theorem X3_tier_never_empty search :
  tier search <> EmptyString
  /\ (params_get search "tier" = Some (tier search)
      \/ (Js.truthy (params_get search "tier") = false
          /\ tier search = SubscriptionTier.value SubscriptionTier.Basic)).
Proof.
  unfold tier. destruct (params_get search "tier") as [[|c s]|]; simpl.
  - split; [discriminate | right; auto].
  - split; [discriminate | left; reflexivity].
  - split; [discriminate | right; auto].
Qed.

(* ------------------------------------------------------------------ *)
(** ** X4: the two effects do not meet *)

(** X4: the checkout effect leaves the document alone and the metadata
    effect changes nothing but the document, so the order of the two
    effects does not matter, and mounting injects the metadata whoever the
    session is and however the request ends. *)
Theorem X4_effects_independent module session search backend w :
  document (flow module session search backend w) = document w
  /\ Eff.exec (mount module session search backend) w
     = Eff.exec metadata_effect (flow module session search backend w)
  /\ document (Eff.exec (mount module session search backend) w)
     = inject_metadata (document w).
Proof.
  every_flow module session search backend.
  all: repeat split; reflexivity.
Qed.

(* ------------------------------------------------------------------ *)
(** ** X5: when the browser is sent away *)


(* ------------------------------------------------------------------ *)
(** ** X6: how the card titled Redirecting to Checkout is reached *)

(** X6: when the page is still loading before the effect runs, the only
    run after which it renders the card titled Redirecting to Checkout is
    the run of an authenticated session with a configured provider whose
    request was rejected with an Error of empty message. *)
Theorem X6_fallback_card_only_after_empty_error module session search backend w :
  isLoading (current w) = true ->
  view session (flow module session search backend w) = RedirectingView ->
  isAuthenticated session = true
  /\ isStripeAvailable module = true
  /\ backend (tier search) = Rejected (Js.VError EmptyString).
Proof.
  intros Hl. unfold current in Hl. revert Hl.
  unfold render.
  every_flow module session search backend; unfold render;
    repeat match goal with H : isAuthenticated _ = _ |- _ => rewrite H end;
    simpl; intros Hl; try rewrite Hl; try discriminate.
  match goal with v : Js.Value |- _ => destruct v as [| |b|n|s|f|[|c m]] end;
    simpl; try discriminate.
  intros _. auto.
Qed.

Lemma X6_fallback_card_only_after_empty_error_witness :
  isStripeAvailable (import_module configured) = true
  /\ (fun _ : string => Rejected (Js.VError EmptyString)) (tier [])
     = Rejected (Js.VError EmptyString).
Proof.
  destruct (X6_fallback_card_only_after_empty_error
              (import_module configured) signed_in []
              (fun _ => Rejected (Js.VError EmptyString))
              (fresh_world sample_setter configured sample_document) eq_refl eq_refl)
    as [_ [Hm Hb]].
  split; [exact Hm | exact Hb].
Defined.

(* ------------------------------------------------------------------ *)
(** ** X7: the state only moves forward *)

(** X7: a run of the effect never switches loading back on and never
    clears a stored error: if the page is loading after the run, it was
    loading before and no setter was called; if no error is stored after
    the run, none was stored before. *)
Theorem X7_flow_never_resets_state module session search backend w :
  (isLoading (current (flow module session search backend w)) = true ->
   isLoading (current w) = true
   /\ history (flow module session search backend w) = history w)
  /\ (error (current (flow module session search backend w)) = None ->
      error (current w) = None).
Proof.
  every_flow module session search backend;
    split; intros H; try discriminate; auto.
Qed.

(* ------------------------------------------------------------------ *)
(** ** X8: what is logged *)

(** X8: the effect writes to the console exactly when the [try] block
    throws, and then one entry, the label [Error creating subscription:]
    with what was thrown: the rejection reason when the request was
    rejected, the exception of the location setter when the request
    resolved with a non-empty URL that the browser refuses.  Nothing is
    logged in any other run, the request resolving with an object as the
    contract of [createSubscription] has it. *)
Theorem X8_console_logs_what_was_thrown module session search backend w :
  console (flow module session search backend w)
  = if isAuthenticated session && isStripeAvailable module
    then match backend (tier search) with
         | Rejected v => console w ++ [("Error creating subscription:", v)]
         | Resolved r =>
             match url r with
             | Some u =>
                 if Js.truthy_string u
                 then match href_setter w u with
                      | Some (c, m) =>
                          console w
                          ++ [("Error creating subscription:",
                               Js.VError (String c m))]
                      | None => console w
                      end
                 else console w
             | None => console w
             end
         end
    else console w.
Proof.
  every_flow module session search backend.
  all: reflexivity.
Qed.

(* ------------------------------------------------------------------ *)
(** ** X9: nothing is thrown *)

(** X9: mounting the page completes normally and leaves no unhandled
    rejection, for every session, configuration, query string, document
    and behaviour of the backend. *)
Theorem X9_mount_never_throws module session search backend w :
  Eff.result (mount module session search backend) w = Eff.Normal tt
  /\ unhandled (Eff.exec (mount module session search backend) w) = unhandled w.
Proof.
  every_flow module session search backend.
  all: split; reflexivity.
Qed.

(* ------------------------------------------------------------------ *)
(** ** X10: the buttons *)

(** X10: a click on the button of the view rendered after a run only
    changes the route: state, requests and location stay as the run left
    them.  From the error card the click leads to the home route; from the
    card titled Redirecting to Checkout it leads to the account route. *)
Theorem X10_buttons_only_navigate module session search backend w :
  history
    (Eff.exec (click_button (view session (flow module session search backend w)))
              (flow module session search backend w))
  = history (flow module session search backend w)
  /\ requests
       (Eff.exec (click_button (view session (flow module session search backend w)))
                 (flow module session search backend w))
     = requests (flow module session search backend w)
  /\ location_href
       (Eff.exec (click_button (view session (flow module session search backend w)))
                 (flow module session search backend w))
     = location_href (flow module session search backend w)
  /\ (forall msg,
        view session (flow module session search backend w) = ErrorView msg ->
        navigations
          (Eff.exec (click_button (view session (flow module session search backend w)))
                    (flow module session search backend w))
        = navigations w ++ ["/"])
  /\ (view session (flow module session search backend w) = RedirectingView ->
      navigations
        (Eff.exec (click_button (view session (flow module session search backend w)))
                  (flow module session search backend w))
      = navigations w ++ ["/account"]).
Proof.
  assert (Hnav : isAuthenticated session = true ->
                 navigations (flow module session search backend w) = navigations w).
  { every_flow module session search backend; intros; try reflexivity; discriminate. }
  assert (Hauth : forall v, view session (flow module session search backend w) = v ->
                            v <> Nothing -> isAuthenticated session = true).
  { intros v Hv Hneq. unfold view, render in Hv.
    destruct (isAuthenticated session); [reflexivity|]. simpl in Hv. congruence. }
  split; [|split; [|split; [|split]]].
  - destruct (view session _); reflexivity.
  - destruct (view session _); reflexivity.
  - destruct (view session _); reflexivity.
  - intros msg Hv. rewrite Hv. simpl. unfold Eff.exec. simpl.
    rewrite Hnav; [reflexivity|]. apply (Hauth _ Hv). discriminate.
  - intros Hv. rewrite Hv. simpl. unfold Eff.exec. simpl.
    rewrite Hnav; [reflexivity|]. apply (Hauth _ Hv). discriminate.
Qed.

(* ------------------------------------------------------------------ *)
(** ** X11: one change of view at most *)

(** X11: in a run that starts from the initial state the page shows its
    first view and changes it at most once, whatever the session, the
    configuration and the outcome of the request. *)
Theorem X11_at_most_one_view_change module session search backend w :
  history w = [initial_state] ->
  hd_error (views session (flow module session search backend w))
  = Some (render session initial_state)
  /\ length (stays (views session (flow module session search backend w))) <= 2.
Proof.
  intros Hw.
  every_flow module session search backend;
    unfold current; rewrite ?Hw; simpl; unfold render;
    repeat match goal with H : isAuthenticated _ = _ |- _ => rewrite H end;
    simpl; try (split; [reflexivity | lia]).
  match goal with v : Js.Value |- _ => destruct v as [| |b|n|s|f|[|c m]] end;
    simpl; split; try reflexivity; lia.
Qed.

Lemma X11_at_most_one_view_change_witness :
  length
    (stays (views signed_in
              (flow (import_module configured) signed_in []
                    (fun _ => Rejected (Js.VString "timeout"))
                    (fresh_world sample_setter configured sample_document))))
  <= 2.
Proof.
  destruct (X11_at_most_one_view_change
              (import_module configured) signed_in []
              (fun _ => Rejected (Js.VString "timeout"))
              (fresh_world sample_setter configured sample_document) eq_refl) as [_ H].
  exact H.
Defined.

(* ------------------------------------------------------------------ *)
(** ** Writing an attribute the selector does not read *)

Section Unread.

Variable s : Dom.Selector.
Variables k v : string.
Hypothesis unread : selector_reads s k = false.

Lemma matches_set_attr_unread n :
  Dom.matches s (Dom.set_attr n k v) = Dom.matches s n.
Proof.
  destruct n as [d|t a cs]; [reflexivity|].
  destruct s as [tag|tag id|tag name value]; simpl in *; try reflexivity;
    unfold Dom.attr_is; now rewrite getAttribute_setAttribute_other.
Qed.

Lemma query_set_attr_unread n :
  Dom.query s (Dom.set_attr n k v) = Dom.query s n.
Proof.
  pose proof (matches_set_attr_unread n) as Hm.
  destruct n as [d|t a cs]; [reflexivity|].
  simpl Dom.set_attr in *. rewrite !query_element. now rewrite Hm.
Qed.

Lemma count_set_attr_unread n :
  Dom.count s (Dom.set_attr n k v) = Dom.count s n.
Proof.
  pose proof (matches_set_attr_unread n) as Hm.
  destruct n as [d|t a cs]; [reflexivity|].
  simpl Dom.set_attr in *. rewrite !count_element. now rewrite Hm.
Qed.

Lemma map_query_update_nth f i l :
  (forall n, Dom.query s (f n) = Dom.query s n) ->
  map (Dom.query s) (Dom.update_nth i f l) = map (Dom.query s) l.
Proof.
  intros Hf. revert i. induction l as [|c l IHl]; intros [|i]; simpl;
    try reflexivity.
  - now rewrite Hf.
  - now rewrite IHl.
Qed.

Lemma query_on_children g n :
  (forall cs, map (Dom.query s) (g cs) = map (Dom.query s) cs) ->
  Dom.query s (Dom.on_children g n) = Dom.query s n.
Proof.
  intros Hg. destruct n as [d|t a cs]; [reflexivity|].
  simpl Dom.on_children. rewrite !query_element.
  change (Dom.matches s (Dom.Element t a (g cs)))
    with (Dom.matches s (Dom.Element t a cs)).
  now rewrite Hg.
Qed.

Lemma map_query_set_attr_at p l :
  map (Dom.query s) (Dom.set_attr_at p k v l) = map (Dom.query s) l.
Proof.
  revert l. induction p as [|i q IH]; intros l; [reflexivity|].
  destruct q as [|j q].
  - apply map_query_update_nth. apply query_set_attr_unread.
  - apply map_query_update_nth. intros n. apply query_on_children. exact IH.
Qed.

(** The search answers the same place before and after the write. *)
Lemma querySelector_set_attr_at p l :
  Dom.querySelector s (Dom.set_attr_at p k v l) = Dom.querySelector s l.
Proof. unfold Dom.querySelector. now rewrite map_query_set_attr_at. Qed.

Lemma count_set_attr_at_unread p l :
  Dom.count_all s (Dom.set_attr_at p k v l) = Dom.count_all s l.
Proof.
  revert l. induction p as [|i q IH]; intros l; [reflexivity|].
  destruct q as [|j q].
  - apply count_update_nth. apply count_set_attr_unread.
  - apply count_update_nth. intros n. apply count_on_children. exact IH.
Qed.

End Unread.

(** ** Writing the same attribute twice *)

Lemma getAttribute_setAttribute_same a k v :
  Dom.getAttribute (Dom.setAttribute a k v) k = Some v.
Proof.
  induction a as [|[k0 v0] a IH]; simpl.
  - now rewrite String.eqb_refl.
  - destruct (String.eqb k0 k) eqn:E; simpl; now rewrite E.
Qed.

Lemma setAttribute_twice a k v :
  Dom.setAttribute (Dom.setAttribute a k v) k v = Dom.setAttribute a k v.
Proof.
  induction a as [|[k0 v0] a IH]; simpl.
  - now rewrite String.eqb_refl.
  - destruct (String.eqb k0 k) eqn:E; simpl; rewrite E; [reflexivity|].
    now rewrite IH.
Qed.

Lemma update_nth_twice f i l :
  (forall n, f (f n) = f n) ->
  Dom.update_nth i f (Dom.update_nth i f l) = Dom.update_nth i f l.
Proof.
  intros Hf. revert i. induction l as [|c l IHl]; intros [|i]; simpl;
    try reflexivity.
  - now rewrite Hf.
  - now rewrite IHl.
Qed.

Lemma on_children_twice g n :
  (forall cs, g (g cs) = g cs) ->
  Dom.on_children g (Dom.on_children g n) = Dom.on_children g n.
Proof. intros Hg. destruct n; simpl; [reflexivity | now rewrite Hg]. Qed.

Lemma set_attr_at_twice p k v l :
  Dom.set_attr_at p k v (Dom.set_attr_at p k v l) = Dom.set_attr_at p k v l.
Proof.
  revert l. induction p as [|i q IH]; intros l; [reflexivity|].
  destruct q as [|j q].
  - apply update_nth_twice. intros [d|t a cs]; simpl; [reflexivity|].
    now rewrite setAttribute_twice.
  - apply update_nth_twice. intros n. apply on_children_twice. exact IH.
Qed.

(** ** Reading a node back *)

Lemma nth_error_update_nth f i l :
  nth_error (Dom.update_nth i f l) i = option_map f (nth_error l i).
Proof.
  revert i. induction l as [|c l IHl]; intros [|i]; simpl; try reflexivity.
  apply IHl.
Qed.

Lemma node_at_set_attr_at p k v l :
  node_at p (Dom.set_attr_at p k v l)
  = option_map (fun n => Dom.set_attr n k v) (node_at p l).
Proof.
  revert l. induction p as [|i q IH]; intros l; [reflexivity|].
  destruct q as [|j q].
  - apply nth_error_update_nth.
  - change (node_at (i :: j :: q) (Dom.set_attr_at (i :: j :: q) k v l))
      with (match nth_error
                    (Dom.update_nth i (Dom.on_children (Dom.set_attr_at (j :: q) k v)) l) i
            with
            | Some (Dom.Element _ _ cs) => node_at (j :: q) cs
            | _ => None
            end).
    rewrite nth_error_update_nth.
    change (node_at (i :: j :: q) l)
      with (match nth_error l i with
            | Some (Dom.Element _ _ cs) => node_at (j :: q) cs
            | _ => None
            end).
    destruct (nth_error l i) as [[d|t a cs]|]; simpl; try reflexivity.
    apply IH.
Qed.

Section Found.

Variable s : Dom.Selector.

Lemma first_some_found i l p :
  Dom.first_some i (map (Dom.query s) l) = Some p ->
  exists j q c, p = (i + j) :: q /\ nth_error l j = Some c /\ Dom.query s c = Some q.
Proof.
  revert i. induction l as [|c l IHl]; intros i H; simpl in H; [discriminate|].
  destruct (Dom.query s c) as [q0|] eqn:Hq.
  - injection H as <-. exists 0, q0, c. repeat split; [f_equal; lia | exact Hq].
  - destruct (IHl _ H) as [j [q [c' [-> [Hn Hc]]]]].
    exists (S j), q, c'. repeat split; [f_equal; lia | exact Hn | exact Hc].
Qed.

(** What a search finds is an element of the document that matches. *)
Lemma query_found n :
  forall q, Dom.query s n = Some q ->
    match q with
    | [] => Dom.matches s n = true
    | _ :: _ =>
        exists t a cs m,
          n = Dom.Element t a cs /\ node_at q cs = Some m
          /\ Dom.matches s m = true
    end.
Proof.
  induction n as [d|t a cs IH] using Node_children_ind; intros q Hq.
  - discriminate.
  - destruct q as [|j q]; [now apply query_here|].
    rewrite query_element in Hq.
    destruct (Dom.matches s (Dom.Element t a cs)); [discriminate|].
    destruct (first_some_found _ _ _ Hq) as [j' [q' [c [Hp [Hn Hc]]]]].
    injection Hp as -> ->. simpl in Hn.
    rewrite Forall_forall in IH.
    specialize (IH c (nth_error_In _ _ Hn) _ Hc).
    destruct q' as [|j2 q2].
    + exists t, a, cs, c. repeat split; [exact Hn | exact IH].
    + destruct IH as [t' [a' [cs' [m [-> [Hm Hmatch]]]]]].
      exists t, a, cs, m. repeat split; [|exact Hmatch].
      change (node_at (j' :: j2 :: q2) cs)
        with (match nth_error cs j' with
              | Some (Dom.Element _ _ cs0) => node_at (j2 :: q2) cs0
              | _ => None
              end).
      now rewrite Hn.
Qed.

Lemma querySelector_found l p :
  Dom.querySelector s l = Some p ->
  exists m, node_at p l = Some m /\ Dom.matches s m = true.
Proof.
  intros H. unfold Dom.querySelector in H.
  destruct (first_some_found _ _ _ H) as [j [q [c [-> [Hn Hc]]]]]. simpl.
  pose proof (query_found c _ Hc) as Hf.
  destruct q as [|j2 q2].
  - exists c. split; [exact Hn | exact Hf].
  - destruct Hf as [t [a [cs [m [-> [Hm Hmatch]]]]]].
    exists m. split; [|exact Hmatch].
    change (node_at (j :: j2 :: q2) l)
      with (match nth_error l j with
            | Some (Dom.Element _ _ cs0) => node_at (j2 :: q2) cs0
            | _ => None
            end).
    now rewrite Hn.
Qed.

(** A subtree without match answers no search. *)
Lemma count_zero_query_none n : Dom.count s n = 0 -> Dom.query s n = None.
Proof.
  induction n as [d|t a cs IH] using Node_children_ind; intros H.
  - reflexivity.
  - rewrite count_element in H. rewrite query_element.
    destruct (Dom.matches s (Dom.Element t a cs)); [discriminate|].
    simpl in H. generalize 0 as i.
    induction IH as [|c cs Hc _ IHcs]; intros i; [reflexivity|].
    rewrite count_all_cons in H. simpl.
    rewrite (Hc ltac:(lia)). apply IHcs. lia.
Qed.

Lemma first_some_after_none i l c q :
  Dom.count_all s l = 0 -> Dom.query s c = Some q ->
  Dom.first_some i (map (Dom.query s) (l ++ [c])) = Some ((i + length l) :: q).
Proof.
  revert i. induction l as [|x l IHl]; intros i Hl Hc; simpl.
  - rewrite Hc. f_equal. f_equal. lia.
  - rewrite count_all_cons in Hl.
    rewrite (count_zero_query_none x ltac:(lia)).
    rewrite IHl by (assumption || lia). f_equal. f_equal. lia.
Qed.

End Found.

Lemma remove_nth_last l c : Dom.remove_nth (length l) (l ++ [c]) = l.
Proof. induction l as [|x l IHl]; simpl; [reflexivity | now rewrite IHl]. Qed.

(* ------------------------------------------------------------------ *)
(** ** X12 and X13: the description *)

(** X12: when the document has a description [meta], the first one in
    document order is rewritten in place: after the update the same place
    is still the first description [meta], and its [content] is the text
    of the page. *)
Theorem X12_description_rewritten_in_place ns p :
  Dom.querySelector description_selector ns = Some p ->
  Dom.querySelector description_selector (update_description ns) = Some p
  /\ attribute_at p "content" (update_description ns) = Some page_description
  /\ attribute_at p "name" (update_description ns) = Some "description".
Proof.
  intros Hp. unfold update_description.
  change (Dom.TagAttr "meta" "name" "description") with description_selector.
  rewrite Hp.
  assert (Hq : Dom.querySelector description_selector
                 (Dom.set_attr_at p "content" page_description ns) = Some p).
  { rewrite querySelector_set_attr_at; [exact Hp | reflexivity]. }
  split; [exact Hq|].
  destruct (querySelector_found _ _ _ Hp) as [m [Hm _]].
  destruct (querySelector_found _ _ _ Hq) as [m' [Hm' Hmatch]].
  unfold attribute_at. rewrite Hm'.
  rewrite node_at_set_attr_at, Hm in Hm'. simpl in Hm'. injection Hm' as <-.
  destruct m as [d|t a cs]; [discriminate|]. simpl in *. split.
  - apply getAttribute_setAttribute_same.
  - apply andb_true_iff in Hmatch. destruct Hmatch as [_ Hname].
    unfold Dom.attr_is in Hname.
    destruct (Dom.getAttribute (Dom.setAttribute a "content" page_description) "name")
      as [x|]; [|discriminate].
    apply String.eqb_eq in Hname. now subst x.
Qed.

Lemma X12_description_rewritten_in_place_witness :
  attribute_at [0; 0; 1] "content" (update_description (Dom.nodes sample_document))
  = Some page_description.
Proof.
  destruct (X12_description_rewritten_in_place
              (Dom.nodes sample_document) [0; 0; 1] eq_refl) as [_ [H _]].
  exact H.
Defined.

(** Updating the description twice is updating it once. *)
Lemma update_description_twice ns :
  update_description (update_description ns) = update_description ns.
Proof.
  unfold update_description at 2 3.
  destruct (Dom.querySelector (Dom.TagAttr "meta" "name" "description") ns)
    as [p|] eqn:Hp.
  - unfold update_description.
    rewrite querySelector_set_attr_at by reflexivity. rewrite Hp.
    apply set_attr_at_twice.
  - unfold update_description. now rewrite Hp.
Qed.

(** X13: the description update is idempotent, it adds and removes no
    element (for every selector that does not read [content], as many
    elements match after as before), and a document without description
    [meta] is left as it is: none is created. *)
Theorem X13_description_update_idempotent ns :
  update_description (update_description ns) = update_description ns
  /\ (forall s, selector_reads s "content" = false ->
        Dom.count_all s (update_description ns) = Dom.count_all s ns)
  /\ (Dom.count_all description_selector ns = 0 -> update_description ns = ns).
Proof.
  split; [|split].
  - apply update_description_twice.
  - intros s Hs. unfold update_description.
    destruct (Dom.querySelector _ ns); [|reflexivity].
    now apply count_set_attr_at_unread.
  - intros Hc. unfold update_description.
    destruct (Dom.querySelector (Dom.TagAttr "meta" "name" "description") ns)
      as [p|] eqn:Hp; [|reflexivity].
    apply remove_found_count in Hp.
    change (Dom.TagAttr "meta" "name" "description") with description_selector in Hp.
    lia.
Qed.

(* ------------------------------------------------------------------ *)
(** ** X14 and X15: where the script goes *)

(** In a document with an [html] root and its [head], the second part of
    the injector leaves the fresh script as the last child of the head;
    of the schema scripts that were there, the first is gone. *)
Lemma replace_schema_appends a ha in_head rest :
  exists in_head' rest',
    replace_schema (html_document a ha in_head rest)
    = html_document a ha (in_head' ++ [schemaScript]) rest'
    /\ Dom.count_all schema_selector in_head' + Dom.count_all schema_selector rest'
       <= Dom.count_all schema_selector in_head + Dom.count_all schema_selector rest
    /\ (0 < Dom.count_all schema_selector in_head
            + Dom.count_all schema_selector rest ->
        Dom.count_all schema_selector in_head' + Dom.count_all schema_selector rest'
        < Dom.count_all schema_selector in_head + Dom.count_all schema_selector rest).
Proof.
  unfold replace_schema. rewrite head_of_html_document.
  generalize schemaScript. intros c.
  destruct (Dom.querySelector schema_selector (html_document a ha in_head rest))
    as [e|] eqn:He.
  - pose proof (remove_found_count _ _ _ He) as Hlt.
    rewrite schema_of_html_document in He.
    destruct (Dom.querySelector schema_selector in_head) as [q|] eqn:Hq.
    + injection He as <-.
      destruct (first_some_index _ _ _ Hq) as [j [q' [-> _]]].
      exists (Dom.remove_at (j :: q') in_head), rest.
      split; [reflexivity|].
      change (Dom.remove_at (0 :: 0 :: j :: q') (html_document a ha in_head rest))
        with (html_document a ha (Dom.remove_at (j :: q') in_head) rest) in Hlt.
      rewrite !count_html_document in Hlt. lia.
    + destruct (Dom.first_some 1 (map (Dom.query schema_selector) rest))
        as [q|] eqn:Hr; [|discriminate].
      injection He as <-.
      destruct (first_some_index _ _ _ Hr) as [[|j] [q' [-> Hj]]]; [lia|].
      exists in_head, (Dom.remove_at (j :: q') rest).
      assert (Hrm : Dom.remove_at (0 :: S j :: q') (html_document a ha in_head rest)
                    = html_document a ha in_head (Dom.remove_at (j :: q') rest))
        by (destruct q'; reflexivity).
      rewrite Hrm in *.
      split; [destruct q'; reflexivity|].
      rewrite !count_html_document in Hlt. lia.
  - apply not_found_count in He. rewrite count_html_document in He.
    exists in_head, rest. split; [reflexivity | lia].
Qed.

(** X14: in a document with an [html] root and its [head], whatever else
    is in it, after the second part of the injector has run the last child
    of the head is the fresh schema script; the document then holds at
    least one schema script, and no more than it held before unless it
    held none. *)
Theorem X14_fresh_script_last_in_head a ha in_head rest :
  exists in_head' rest',
    replace_schema (html_document a ha in_head rest)
    = html_document a ha (in_head' ++ [schemaScript]) rest'
    /\ 1 <= Dom.count_all schema_selector
              (replace_schema (html_document a ha in_head rest))
    /\ Dom.count_all schema_selector
         (replace_schema (html_document a ha in_head rest))
       <= Nat.max 1 (Dom.count_all schema_selector
                       (html_document a ha in_head rest)).
Proof.
  destruct (replace_schema_appends a ha in_head rest) as [h [r [Heq [Hc Hlt]]]].
  exists h, r. split; [exact Heq|].
  rewrite Heq, !count_html_document, count_all_app.
  change (Dom.count_all schema_selector [schemaScript]) with 1.
  split; lia.
Qed.

(** With the fresh script last in the head and no other schema script in
    the document, a further run takes it out and puts it back. *)
Lemma replace_schema_stable a ha in_head rest :
  Dom.count_all schema_selector in_head = 0 ->
  Dom.count_all schema_selector rest = 0 ->
  replace_schema (html_document a ha (in_head ++ [schemaScript]) rest)
  = html_document a ha (in_head ++ [schemaScript]) rest.
Proof.
  intros Hh Hr. unfold replace_schema.
  rewrite head_of_html_document, schema_of_html_document.
  unfold Dom.querySelector at 1.
  rewrite (first_some_after_none schema_selector 0 in_head schemaScript [] Hh eq_refl).
  generalize schemaScript. intros c. simpl Nat.add.
  change (Dom.remove_at (0 :: 0 :: [length in_head])
            (html_document a ha (in_head ++ [c]) rest))
    with (html_document a ha (Dom.remove_nth (length in_head) (in_head ++ [c])) rest).
  rewrite remove_nth_last. reflexivity.
Qed.

(** X15: in a document with an [html] root and its [head] and at most one
    schema script beforehand, running the second part of the injector a
    second time leaves the document exactly as the first run left it:
    same nodes, same order. *)
Theorem X15_replace_schema_idempotent a ha in_head rest :
  Dom.count_all schema_selector (html_document a ha in_head rest) <= 1 ->
  replace_schema (replace_schema (html_document a ha in_head rest))
  = replace_schema (html_document a ha in_head rest).
Proof.
  intros Hle. rewrite count_html_document in Hle.
  destruct (replace_schema_appends a ha in_head rest) as [h [r [Heq [Hc Hlt]]]].
  rewrite Heq. apply replace_schema_stable; lia.
Qed.

Lemma X15_replace_schema_idempotent_witness :
  replace_schema
    (replace_schema
       (html_document [] []
          [Dom.Element "title" [] [Dom.Text "app"]]
          [Dom.Element "body" []
             [Dom.Element "script" [("id", "subscription-schema")] [Dom.Text "stale"]]]))
  = replace_schema
      (html_document [] []
         [Dom.Element "title" [] [Dom.Text "app"]]
         [Dom.Element "body" []
            [Dom.Element "script" [("id", "subscription-schema")] [Dom.Text "stale"]]]).
Proof.
  apply (X15_replace_schema_idempotent [] []
           [Dom.Element "title" [] [Dom.Text "app"]]
           [Dom.Element "body" []
              [Dom.Element "script" [("id", "subscription-schema")]
                 [Dom.Text "stale"]]]).
  vm_compute. lia.
Defined.

(* ------------------------------------------------------------------ *)
(** ** X16: a document without head *)

Lemma count_zero_querySelector_none s l :
  Dom.count_all s l = 0 -> Dom.querySelector s l = None.
Proof.
  intros H. unfold Dom.querySelector. generalize 0 as i. revert H.
  induction l as [|c l IHl]; intros H i; [reflexivity|].
  rewrite count_all_cons in H. simpl.
  rewrite (count_zero_query_none s c ltac:(lia)). apply IHl. lia.
Qed.

Lemma child_named_count tag i cs j :
  Dom.child_named tag i cs = Some j -> 0 < Dom.count_all (Dom.Tag tag) cs.
Proof.
  revert i. induction cs as [|[d|t a cs0] cs IH]; intros i H; simpl in H.
  - discriminate.
  - rewrite count_all_cons. specialize (IH _ H). lia.
  - rewrite count_all_cons, count_element.
    destruct (String.eqb t tag) eqn:E.
    + simpl Dom.matches. rewrite E. lia.
    + specialize (IH _ H). lia.
Qed.

Lemma first_element_count s i l k t a cs :
  Dom.first_element i l = Some (k, Dom.Element t a cs) ->
  Dom.count_all s cs <= Dom.count_all s l.
Proof.
  revert i. induction l as [|[d|t0 a0 cs0] l IH]; intros i H; simpl in H.
  - discriminate.
  - rewrite count_all_cons. specialize (IH _ H). lia.
  - injection H as _ -> -> ->. rewrite count_all_cons, count_element. lia.
Qed.

(** A document without any [head] has no head element. *)
Lemma head_element_none ns :
  Dom.querySelector (Dom.Tag "head") ns = None -> Dom.head_element ns = None.
Proof.
  intros H. apply not_found_count in H. unfold Dom.head_element.
  destruct (Dom.first_element 0 ns) as [[k [d|t a cs]]|] eqn:He; try reflexivity.
  destruct (String.eqb t "html"); [|reflexivity].
  destruct (Dom.child_named "head" 0 cs) as [j|] eqn:Hc; [|reflexivity].
  apply child_named_count in Hc.
  pose proof (first_element_count (Dom.Tag "head") 0 ns k t a cs He). lia.
Qed.

(** Without [head], assigning the title adds no element. *)
Lemma count_set_title_without_head s x ns :
  Dom.querySelector (Dom.Tag "head") ns = None ->
  Dom.count_all s (Dom.set_title x ns) <= Dom.count_all s ns.
Proof.
  intros H. unfold Dom.set_title.
  destruct (Dom.querySelector (Dom.Tag "title") ns) as [p|].
  - apply count_set_children_at_le. apply count_text_children.
  - rewrite (head_element_none ns H). lia.
Qed.

Lemma inject_metadata_without_head s d :
  Dom.querySelector (Dom.Tag "head") (Dom.nodes d) = None ->
  selector_reads s "content" = false ->
  Dom.count_all s (Dom.nodes (inject_metadata d)) <= Dom.count_all s (Dom.nodes d).
Proof.
  intros Hhead Hs. unfold inject_metadata. simpl Dom.nodes.
  assert (H1 : Dom.querySelector (Dom.Tag "head")
                 (Dom.set_title page_title (Dom.nodes d)) = None).
  { apply count_zero_querySelector_none.
    pose proof (count_set_title_without_head (Dom.Tag "head") page_title
                  (Dom.nodes d) Hhead).
    apply not_found_count in Hhead. lia. }
  assert (H2 : Dom.querySelector (Dom.Tag "head")
                 (update_description (Dom.set_title page_title (Dom.nodes d)))
               = None).
  { unfold update_description.
    destruct (Dom.querySelector (Dom.TagAttr "meta" "name" "description") _);
      [|exact H1].
    rewrite querySelector_set_attr_at; [exact H1 | reflexivity]. }
  rewrite (replace_schema_without_head _ H2).
  assert (H3 : Dom.count_all s
                 (update_description (Dom.set_title page_title (Dom.nodes d)))
               = Dom.count_all s (Dom.set_title page_title (Dom.nodes d))).
  { unfold update_description.
    destruct (Dom.querySelector (Dom.TagAttr "meta" "name" "description") _);
      [|reflexivity].
    now apply count_set_attr_at_unread. }
  rewrite H3. now apply count_set_title_without_head.
Qed.

(** X16: in a document without [head] element the injector adds no
    element, however often it runs: for every selector that does not read
    the [content] attribute (the one of the schema script and the one of
    the title among them) at most as many elements match after any number
    of runs as before, and there is still no [head].  So no schema script
    is inserted and no title is created. *)
Theorem X16_without_head_nothing_inserted d n s :
  Dom.querySelector (Dom.Tag "head") (Dom.nodes d) = None ->
  selector_reads s "content" = false ->
  Dom.count_all s (Dom.nodes (inject_times n d)) <= Dom.count_all s (Dom.nodes d)
  /\ Dom.querySelector (Dom.Tag "head") (Dom.nodes (inject_times n d)) = None.
Proof.
  intros Hhead Hs. induction n as [|n [IHc IHh]].
  - split; [apply Nat.le_refl | exact Hhead].
  - simpl inject_times. split.
    + pose proof (inject_metadata_without_head s (inject_times n d) IHh Hs). lia.
    + apply count_zero_querySelector_none.
      pose proof (inject_metadata_without_head (Dom.Tag "head")
                    (inject_times n d) IHh eq_refl).
      apply not_found_count in IHh. lia.
Qed.

Lemma X16_without_head_nothing_inserted_witness :
  Dom.count_all schema_selector
    (Dom.nodes
       (inject_times 3
          {| Dom.nodes :=
               [Dom.Element "div" []
                  [Dom.Element "title" [] [Dom.Text "old"];
                   Dom.Element "meta" [("name", "description")] []]] |}))
  <= 0.
Proof.
  destruct (X16_without_head_nothing_inserted
              {| Dom.nodes :=
                   [Dom.Element "div" []
                      [Dom.Element "title" [] [Dom.Text "old"];
                       Dom.Element "meta" [("name", "description")] []]] |}
              3 schema_selector eq_refl eq_refl) as [H _].
  exact H.
Defined.

(* ------------------------------------------------------------------ *)
(** ** X17: which script is left *)

(** X17: in a document with an [html] root and its [head] and at most one
    schema script beforehand, after any number of runs of the injector, at
    least one, the one schema script of the document is the fresh one,
    last child of the head: a stale script does not survive. *)
Theorem X17_the_script_left_is_the_fresh_one n a ha in_head rest :
  Dom.count_all schema_selector (html_document a ha in_head rest) <= 1 ->
  1 <= n ->
  exists a' ha' in_head' rest',
    inject_times n {| Dom.nodes := html_document a ha in_head rest |}
    = {| Dom.nodes := html_document a' ha' (in_head' ++ [schemaScript]) rest' |}
    /\ Dom.count_all schema_selector in_head' = 0
    /\ Dom.count_all schema_selector rest' = 0.
Proof.
  intros Hle Hn. destruct n as [|n]; [lia|]. clear Hn.
  assert (Hstep : forall d a0 ha0 h0 r0,
             Dom.nodes d = html_document a0 ha0 h0 r0 ->
             Dom.count_all schema_selector (html_document a0 ha0 h0 r0) <= 1 ->
             exists a' ha' in_head' rest',
               inject_metadata d
               = {| Dom.nodes := html_document a' ha' (in_head' ++ [schemaScript]) rest' |}
               /\ Dom.count_all schema_selector in_head' = 0
               /\ Dom.count_all schema_selector rest' = 0).
  { intros d a0 ha0 h0 r0 Hd Hc. unfold inject_metadata. rewrite Hd.
    rewrite count_html_document in Hc.
    destruct (set_title_html_document page_title a0 ha0 h0 r0)
      as [ht [rt [Ht Hct]]].
    rewrite Ht.
    pose proof (count_update_description (html_document a0 ha0 ht rt)) as Hcount.
    destruct (update_description_html_document a0 ha0 ht rt)
      as [a1 [ha1 [h1 [r1 Hu]]]].
    rewrite Hu in *. rewrite !count_html_document in Hcount.
    destruct (replace_schema_appends a1 ha1 h1 r1) as [h2 [r2 [Heq [Hc2 Hlt]]]].
    exists a1, ha1, h2, r2. rewrite Heq. repeat split; lia. }
  induction n as [|n IHn].
  - apply (Hstep {| Dom.nodes := html_document a ha in_head rest |}
                  a ha in_head rest eq_refl Hle).
  - destruct IHn as [a1 [ha1 [h1 [r1 [Heq [Hh Hr]]]]]].
    change (inject_times (S (S n)) {| Dom.nodes := html_document a ha in_head rest |})
      with (inject_metadata
              (inject_times (S n) {| Dom.nodes := html_document a ha in_head rest |})).
    rewrite Heq.
    apply (Hstep {| Dom.nodes := html_document a1 ha1 (h1 ++ [schemaScript]) r1 |}
                 a1 ha1 (h1 ++ [schemaScript]) r1 eq_refl).
    rewrite count_html_document, count_all_app, Hh, Hr.
    change (Dom.count_all schema_selector [schemaScript]) with 1. lia.
Qed.

Lemma X17_the_script_left_is_the_fresh_one_witness :
  exists a' ha' in_head' rest',
    inject_times 2
      {| Dom.nodes :=
           html_document [] []
             [Dom.Element "script" [("id", "subscription-schema")] [Dom.Text "stale"]]
             [Dom.Element "body" [] []] |}
    = {| Dom.nodes := html_document a' ha' (in_head' ++ [schemaScript]) rest' |}
    /\ Dom.count_all schema_selector in_head' = 0
    /\ Dom.count_all schema_selector rest' = 0.
Proof.
  apply (X17_the_script_left_is_the_fresh_one 2 [] []
           [Dom.Element "script" [("id", "subscription-schema")] [Dom.Text "stale"]]
           [Dom.Element "body" [] []]).
  - vm_compute. lia.
  - lia.
Defined.

(* ------------------------------------------------------------------ *)
(** ** X18: a URL the browser refuses *)

(** X18: with an authenticated session and a configured provider, when
    the request resolves with a non-empty URL that the setter of the
    location refuses, the exception is caught: the location stays as it
    was, the exception is logged, its message is stored, loading ends,
    the page renders the Error view with that message, and nothing is
    left unhandled. *)
Theorem X18_refused_url_becomes_error module session search backend w u c m :
  isAuthenticated session = true ->
  isStripeAvailable module = true ->
  backend (tier search) = Resolved {| url := Some u |} ->
  u <> EmptyString ->
  href_setter w u = Some (c, m) ->
  location_href (flow module session search backend w) = location_href w
  /\ current (flow module session search backend w)
     = {| isLoading := false; error := Some (String c m) |}
  /\ view session (flow module session search backend w) = ErrorView (String c m)
  /\ console (flow module session search backend w)
     = console w ++ [("Error creating subscription:", Js.VError (String c m))]
  /\ unhandled (flow module session search backend w) = unhandled w.
Proof.
  intros Ha Hm Hb Hu Hs.
  destruct (flow_refused module session search backend Ha Hm w _ u c m
              Hb eq_refl Hu Hs) as [Hh [Hl Hc]].
  destruct (flow_handles_everything module session search backend Ha Hm w)
    as [Hun _].
  unfold view, current. rewrite Hh. simpl.
  repeat split; try assumption.
  apply render_error; [exact Ha | discriminate].
Qed.

Lemma X18_refused_url_becomes_error_witness :
  view signed_in
    (flow (import_module configured) signed_in []
          (fun _ => Resolved {| url := Some "https://" |})
          (fresh_world sample_setter configured sample_document))
  = ErrorView "Invalid URL: https://"
  /\ location_href
       (flow (import_module configured) signed_in []
             (fun _ => Resolved {| url := Some "https://" |})
             (fresh_world sample_setter configured sample_document))
     = None.
Proof.
  destruct (X18_refused_url_becomes_error
              (import_module configured) signed_in []
              (fun _ => Resolved {| url := Some "https://" |})
              (fresh_world sample_setter configured sample_document)
              "https://" "I"%char "nvalid URL: https://"
              eq_refl eq_refl eq_refl) as [Hl [_ [Hv _]]].
  - discriminate.
  - reflexivity.
  - split; [exact Hv | exact Hl].
Defined.

(* ------------------------------------------------------------------ *)
(** ** X19: the title *)

Lemma nth_error_update_nth_other f i j l :
  i <> j -> nth_error (Dom.update_nth j f l) i = nth_error l i.
Proof.
  revert i j. induction l as [|c l IHl]; intros [|i] [|j] H; simpl;
    try reflexivity; try lia.
  apply IHl. lia.
Qed.

Lemma set_children_at_cons j q cs n l :
  Dom.set_children_at (S j :: q) cs (n :: l)
  = n :: Dom.set_children_at (j :: q) cs l.
Proof. destruct q; reflexivity. Qed.

Lemma set_children_at_here q cs n l :
  Dom.set_children_at (0 :: q) cs (n :: l) = with_children_at q cs n :: l.
Proof. destruct q; reflexivity. Qed.

Section TitleFacts.

Variable s : Dom.Selector.
Variable cs : list Dom.Node.

Lemma first_some_set_children_at l :
  Forall (fun n => forall q, Dom.query s n = Some q ->
                             Dom.query s (with_children_at q cs n) = Some q) l ->
  forall i j q,
    Dom.first_some i (map (Dom.query s) l) = Some ((i + j) :: q) ->
    Dom.first_some i (map (Dom.query s) (Dom.set_children_at (j :: q) cs l))
    = Some ((i + j) :: q).
Proof.
  induction 1 as [|c l Hc _ IHl]; intros i j q H; simpl in H; [discriminate|].
  destruct (Dom.query s c) as [q0|] eqn:Hq.
  - injection H as Hi <-. assert (j = 0) by lia. subst j.
    rewrite set_children_at_here. simpl. rewrite (Hc _ eq_refl).
    now rewrite Nat.add_0_r.
  - destruct (first_some_index _ _ _ H) as [j' [q' [Hp Hle]]].
    injection Hp as Hj _. destruct j as [|j]; [lia|].
    rewrite set_children_at_cons. simpl. rewrite Hq.
    replace (i + S j) with (S i + j) in * by lia. now apply IHl.
Qed.

Lemma query_with_children_at n :
  forall q, Dom.query s n = Some q ->
            Dom.query s (with_children_at q cs n) = Some q.
Proof.
  induction n as [d|t a cs0 IH] using Node_children_ind; intros q Hq.
  - discriminate.
  - destruct q as [|j q].
    + apply query_here in Hq. simpl with_children_at.
      rewrite query_element.
      change (Dom.matches s (Dom.Element t a cs))
        with (Dom.matches s (Dom.Element t a cs0)).
      now rewrite Hq.
    + rewrite query_element in Hq.
      destruct (Dom.matches s (Dom.Element t a cs0)) eqn:Hm; [discriminate|].
      change (with_children_at (j :: q) cs (Dom.Element t a cs0))
        with (Dom.Element t a (Dom.set_children_at (j :: q) cs cs0)).
      rewrite query_element.
      change (Dom.matches s (Dom.Element t a (Dom.set_children_at (j :: q) cs cs0)))
        with (Dom.matches s (Dom.Element t a cs0)).
      rewrite Hm.
      exact (first_some_set_children_at cs0 IH 0 j q Hq).
Qed.

(** The element whose children are replaced is found again where it
    was. *)
Lemma querySelector_set_children_at l p :
  Dom.querySelector s l = Some p ->
  Dom.querySelector s (Dom.set_children_at p cs l) = Some p.
Proof.
  intros H. unfold Dom.querySelector in *.
  destruct (first_some_index _ _ _ H) as [j [q [-> _]]].
  apply (first_some_set_children_at l); [|exact H].
  apply Forall_forall. intros n _. apply query_with_children_at.
Qed.

Lemma first_some_app_none i l c :
  Dom.query s c = None ->
  Dom.first_some i (map (Dom.query s) (l ++ [c]))
  = Dom.first_some i (map (Dom.query s) l).
Proof.
  intros Hc. revert i. induction l as [|x l IHl]; intros i; simpl.
  - now rewrite Hc.
  - destruct (Dom.query s x); [reflexivity | apply IHl].
Qed.

End TitleFacts.

Lemma node_at_set_children_at p cs l t a cs0 :
  node_at p l = Some (Dom.Element t a cs0) ->
  node_at p (Dom.set_children_at p cs l) = Some (Dom.Element t a cs).
Proof.
  revert l. induction p as [|i q IH]; intros l H; [discriminate|].
  destruct q as [|j q].
  - simpl in *. rewrite nth_error_update_nth, H. reflexivity.
  - change (node_at (i :: j :: q) l)
      with (match nth_error l i with
            | Some (Dom.Element _ _ c) => node_at (j :: q) c
            | _ => None
            end) in H.
    change (node_at (i :: j :: q) (Dom.set_children_at (i :: j :: q) cs l))
      with (match nth_error
                    (Dom.update_nth i
                       (Dom.on_children (Dom.set_children_at (j :: q) cs)) l) i
            with
            | Some (Dom.Element _ _ c) => node_at (j :: q) c
            | _ => None
            end).
    rewrite nth_error_update_nth.
    destruct (nth_error l i) as [[d|t0 a0 c0]|]; try discriminate.
    simpl. now apply IH.
Qed.

Lemma set_attr_at_text q k v x :
  Dom.set_attr_at q k v [Dom.Text x] = [Dom.Text x].
Proof. destruct q as [|[|i] [|j q]]; reflexivity. Qed.

(** Writing an attribute somewhere leaves an element with a single text
    child what it is, up to its attributes. *)
Lemma node_at_set_attr_at_text p pm k v l t a x :
  node_at p l = Some (Dom.Element t a [Dom.Text x]) ->
  exists a', node_at p (Dom.set_attr_at pm k v l)
             = Some (Dom.Element t a' [Dom.Text x]).
Proof.
  revert pm l. induction p as [|i q IH]; intros pm l H; [discriminate|].
  destruct pm as [|j qm]; [exists a; exact H|].
  destruct q as [|i2 q].
  - (* the node is a child of this level *)
    simpl in H. simpl node_at.
    destruct (Nat.eq_dec i j) as [<-|Hij].
    + destruct qm as [|j2 qm].
      * simpl. rewrite nth_error_update_nth, H. simpl. eauto.
      * change (Dom.set_attr_at (i :: j2 :: qm) k v l)
          with (Dom.update_nth i
                  (Dom.on_children (Dom.set_attr_at (j2 :: qm) k v)) l).
        rewrite nth_error_update_nth, H.
        cbn [option_map Dom.on_children].
        rewrite set_attr_at_text. eauto.
    + exists a. destruct qm as [|j2 qm].
      * simpl. now rewrite nth_error_update_nth_other.
      * change (Dom.set_attr_at (j :: j2 :: qm) k v l)
          with (Dom.update_nth j
                  (Dom.on_children (Dom.set_attr_at (j2 :: qm) k v)) l).
        now rewrite nth_error_update_nth_other.
  - (* the node lies deeper *)
    change (node_at (i :: i2 :: q) l)
      with (match nth_error l i with
            | Some (Dom.Element _ _ c) => node_at (i2 :: q) c
            | _ => None
            end) in H.
    assert (Hgoal : forall l',
               (match nth_error l' i with
                | Some (Dom.Element _ _ c) => node_at (i2 :: q) c
                | _ => None
                end) = node_at (i :: i2 :: q) l') by reflexivity.
    rewrite <- Hgoal.
    destruct (Nat.eq_dec i j) as [<-|Hij].
    + destruct (nth_error l i) as [[d|t0 a0 c0]|] eqn:Hn; try discriminate.
      destruct qm as [|j2 qm].
      * simpl Dom.set_attr_at. rewrite nth_error_update_nth, Hn. simpl. eauto.
      * change (Dom.set_attr_at (i :: j2 :: qm) k v l)
          with (Dom.update_nth i
                  (Dom.on_children (Dom.set_attr_at (j2 :: qm) k v)) l).
        rewrite nth_error_update_nth, Hn.
        cbn [option_map Dom.on_children]. now apply IH.
    + exists a. destruct qm as [|j2 qm].
      * simpl Dom.set_attr_at. now rewrite nth_error_update_nth_other.
      * change (Dom.set_attr_at (j :: j2 :: qm) k v l)
          with (Dom.update_nth j
                  (Dom.on_children (Dom.set_attr_at (j2 :: qm) k v)) l).
        now rewrite nth_error_update_nth_other.
Qed.

Lemma node_at_app p l c m :
  node_at p l = Some m -> node_at p (l ++ [c]) = Some m.
Proof.
  destruct p as [|i [|j q]]; [discriminate| |].
  - simpl. intros H. rewrite nth_error_app1; [exact H|].
    apply nth_error_Some. congruence.
  - change (node_at (i :: j :: q) l)
      with (match nth_error l i with
            | Some (Dom.Element _ _ c0) => node_at (j :: q) c0
            | _ => None
            end).
    change (node_at (i :: j :: q) (l ++ [c]))
      with (match nth_error (l ++ [c]) i with
            | Some (Dom.Element _ _ c0) => node_at (j :: q) c0
            | _ => None
            end).
    destruct (nth_error l i) as [n|] eqn:Hn; [|discriminate].
    rewrite nth_error_app1; [now rewrite Hn|].
    apply nth_error_Some. congruence.
Qed.

(** After the assignment of a non-empty title in a document with an
    [html] root and its [head], the first [title] element of the document
    holds that title as its one child. *)
Lemma set_title_sets_title x a ha in_head rest :
  x <> EmptyString ->
  exists p at_,
    Dom.querySelector (Dom.Tag "title")
      (Dom.set_title x (html_document a ha in_head rest)) = Some p
    /\ node_at p (Dom.set_title x (html_document a ha in_head rest))
       = Some (Dom.Element "title" at_ [Dom.Text x]).
Proof.
  intros Hx. apply truthy_string_true in Hx. unfold Dom.set_title. rewrite Hx.
  destruct (Dom.querySelector (Dom.Tag "title") (html_document a ha in_head rest))
    as [p|] eqn:Hp.
  - destruct (querySelector_found _ _ _ Hp) as [m [Hm Hmatch]].
    destruct m as [d|t at_ cs0]; [discriminate|].
    simpl in Hmatch. apply String.eqb_eq in Hmatch. subst t.
    exists p, at_. split.
    + now apply querySelector_set_children_at.
    + now apply (node_at_set_children_at p _ _ "title" at_ cs0).
  - rewrite head_element_html_document.
    rewrite title_of_html_document in Hp.
    destruct (Dom.querySelector (Dom.Tag "title") in_head) as [q|] eqn:Hq;
      [discriminate|].
    destruct (Dom.first_some 1 (map (Dom.query (Dom.Tag "title")) rest))
      as [q|] eqn:Hr; [discriminate|].
    apply not_found_count in Hq.
    exists [0; 0; length in_head], [].
    change (Dom.append_at [0; 0] (Dom.Element "title" [] [Dom.Text x])
              (html_document a ha in_head rest))
      with (html_document a ha (in_head ++ [Dom.Element "title" [] [Dom.Text x]]) rest).
    split.
    + rewrite title_of_html_document. unfold Dom.querySelector.
      rewrite (first_some_after_none (Dom.Tag "title") 0 in_head
                 (Dom.Element "title" [] [Dom.Text x]) [] Hq eq_refl).
      reflexivity.
    + change (node_at [0; 0; length in_head]
                (html_document a ha
                   (in_head ++ [Dom.Element "title" [] [Dom.Text x]]) rest))
        with (nth_error (in_head ++ [Dom.Element "title" [] [Dom.Text x]])
                (length in_head)).
      rewrite nth_error_app2 by lia. now rewrite Nat.sub_diag.
Qed.

(** X19: in a document with an [html] root and its [head] that holds no
    schema script yet (the page is mounted for the first time), after a
    run of the injector the first [title] element of the document holds
    the title of the page as its one child: the text of an existing title
    is replaced, and without title element one is created in the head. *)
Theorem X19_title_after_first_run a ha in_head rest :
  Dom.count_all schema_selector (html_document a ha in_head rest) = 0 ->
  exists p at_,
    Dom.querySelector (Dom.Tag "title")
      (Dom.nodes (inject_metadata {| Dom.nodes := html_document a ha in_head rest |}))
    = Some p
    /\ node_at p
         (Dom.nodes
            (inject_metadata {| Dom.nodes := html_document a ha in_head rest |}))
       = Some (Dom.Element "title" at_ [Dom.Text page_title]).
Proof.
  intros Hzero. unfold inject_metadata. simpl Dom.nodes.
  rewrite count_html_document in Hzero.
  (* the title *)
  destruct (set_title_sets_title page_title a ha in_head rest ltac:(discriminate))
    as [p [at0 [Hq0 Hn0]]].
  destruct (set_title_html_document page_title a ha in_head rest)
    as [h0 [r0 [Ht Hc0]]].
  rewrite Ht in *.
  (* the description *)
  assert (Hq1 : Dom.querySelector (Dom.Tag "title")
                  (update_description (html_document a ha h0 r0)) = Some p).
  { unfold update_description.
    destruct (Dom.querySelector (Dom.TagAttr "meta" "name" "description") _);
      [|exact Hq0].
    rewrite querySelector_set_attr_at; [exact Hq0 | reflexivity]. }
  assert (Hn1 : exists at1,
             node_at p (update_description (html_document a ha h0 r0))
             = Some (Dom.Element "title" at1 [Dom.Text page_title])).
  { unfold update_description.
    destruct (Dom.querySelector (Dom.TagAttr "meta" "name" "description") _)
      as [pm|]; [|eauto].
    now apply (node_at_set_attr_at_text p pm _ _ _ "title" at0). }
  destruct Hn1 as [at1 Hn1].
  pose proof (count_update_description (html_document a ha h0 r0)) as Hcount.
  destruct (update_description_html_document a ha h0 r0)
    as [a1 [ha1 [h1 [r1 Hu]]]].
  rewrite Hu in *. rewrite !count_html_document in Hcount.
  (* the script: nothing to remove, the fresh script goes last in the head *)
  assert (Hnone : Dom.querySelector schema_selector (html_document a1 ha1 h1 r1) = None).
  { apply count_zero_querySelector_none. rewrite count_html_document. lia. }
  assert (Hrep : replace_schema (html_document a1 ha1 h1 r1)
                 = html_document a1 ha1 (h1 ++ [schemaScript]) r1).
  { unfold replace_schema. rewrite head_of_html_document, Hnone. reflexivity. }
  rewrite Hrep. clear Hrep Hnone.
  exists p, at1.
  rewrite title_of_html_document in *.
  unfold Dom.querySelector in *.
  rewrite (first_some_app_none (Dom.Tag "title") 0 h1 schemaScript eq_refl).
  split; [exact Hq1|].
  destruct (Dom.first_some 0 (map (Dom.query (Dom.Tag "title")) h1)) as [q|] eqn:Hh.
  - injection Hq1 as <-.
    destruct (first_some_index _ _ _ Hh) as [j [q' [-> _]]].
    change (node_at (0 :: 0 :: j :: q') (html_document a1 ha1 h1 r1))
      with (node_at (j :: q') h1) in Hn1.
    change (node_at (0 :: 0 :: j :: q')
              (html_document a1 ha1 (h1 ++ [schemaScript]) r1))
      with (node_at (j :: q') (h1 ++ [schemaScript])).
    now apply node_at_app.
  - destruct (Dom.first_some 1 (map (Dom.query (Dom.Tag "title")) r1))
      as [q|] eqn:Hr; [|discriminate].
    injection Hq1 as <-.
    destruct (first_some_index _ _ _ Hr) as [[|j] [q' [-> Hj]]]; [lia|].
    rewrite <- Hn1. destruct q'; reflexivity.
Qed.

Lemma X19_title_after_first_run_witness :
  exists p at_,
    Dom.querySelector (Dom.Tag "title")
      (Dom.nodes (inject_metadata sample_document))
    = Some p
    /\ node_at p (Dom.nodes (inject_metadata sample_document))
       = Some (Dom.Element "title" at_ [Dom.Text page_title]).
Proof.
  apply (X19_title_after_first_run [("lang", "en")] []
           [Dom.Element "title" [] [Dom.Text "AI LaTeX Generator"];
            Dom.Element "meta" [("name", "description"); ("content", "LaTeX with AI")] []]
           [Dom.Element "body" [] [Dom.Element "div" [("id", "root")] []]]).
  reflexivity.
Defined.
